(** * mcp-ripgrep: root-scoped search over an external engine

    A shallow embedding of [src/index.ts] (class [RipgrepServer]) and the
    properties of its root registry, scope resolution, path validation,
    argument construction and output adaptation.

    JavaScript strings are modelled as [string]; the platform functions the
    server calls ([String.prototype.replace], [split], [trim], [startsWith],
    [Array.prototype.join], POSIX [path.resolve]) are written out below.
    [JSON.parse], the file system, the roots authority and the [rg]
    subprocess are collaborators of the server and are taken as parameters. *)

From Stdlib Require Import String Ascii List ZArith Bool Lia DecimalString.
Import ListNotations.
Set Warnings "-register-all".
Local Open Scope list_scope.
Local Open Scope string_scope.

(* ===================================================================== *)
(** * JavaScript strings *)
(* ===================================================================== *)

Module Js.

(** [s.length] *)
Definition len (s : string) : nat := String.length s.

(** [s.slice(n)] for [0 <= n]. *)
Fixpoint drop (n : nat) (s : string) : string :=
  match n, s with
  | O, _ => s
  | S _, EmptyString => EmptyString
  | S n', String _ s' => drop n' s'
  end.

(** [s.startsWith(p)] *)
Definition startsWith (s p : string) : bool := String.prefix p s.

(** [s.replace(pat, rep)] with a string pattern: only the first
    occurrence of [pat] is replaced, wherever it stands in [s]. *)
Fixpoint replace (s pat rep : string) : string :=
  if String.prefix pat s then rep ++ drop (len pat) s
  else match s with
       | EmptyString => EmptyString
       | String c s' => String c (replace s' pat rep)
       end.

(** [s.split(sep)] for a one-character separator. *)
Fixpoint split (s : string) (sep : ascii) : list string :=
  match s with
  | EmptyString => [EmptyString]
  | String c s' =>
      if Ascii.eqb c sep then EmptyString :: split s' sep
      else match split s' sep with
           | [] => [String c EmptyString]
           | h :: t => String c h :: t
           end
  end.

(** [xs.join(sep)] on an array of strings. *)
Fixpoint join (xs : list string) (sep : string) : string :=
  match xs with
  | [] => EmptyString
  | [x] => x
  | x :: rest => x ++ sep ++ join rest sep
  end.

(** White space and line terminators removed by [trim], among the
    characters of the model (code units below 256): TAB, LF, VT, FF, CR, SP
    and NBSP. *)
Definition isWhiteSpace (c : ascii) : bool :=
  let n := nat_of_ascii c in
  (Nat.leb 9 n && Nat.leb n 13) || Nat.eqb n 32 || Nat.eqb n 160.

Fixpoint trimStart (s : string) : string :=
  match s with
  | EmptyString => EmptyString
  | String c s' => if isWhiteSpace c then trimStart s' else s
  end.

Fixpoint trimEnd (s : string) : string :=
  match s with
  | EmptyString => EmptyString
  | String c s' =>
      let t := trimEnd s' in
      if isWhiteSpace c && String.eqb t EmptyString then EmptyString
      else String c t
  end.

(** [s.trim()] *)
Definition trim (s : string) : string := trimEnd (trimStart s).

(** Truthiness of a string value: every string but the empty one. *)
Definition truthy (s : string) : bool := negb (String.eqb s EmptyString).

(** Truthiness of a possibly [undefined] string. *)
Definition truthy_opt (o : option string) : bool :=
  match o with
  | Some s => truthy s
  | None => false
  end.

(** Template-literal rendering of a number that is a safe integer
    ([Number.isSafeInteger], at most [2^53 - 1] in absolute value): its
    decimal digits. Larger values and fractions, which JavaScript renders
    otherwise, are outside this model. *)
Definition ofNumber (n : Z) : string := NilZero.string_of_int (Z.to_int n).

End Js.

(* ===================================================================== *)
(** * [path.resolve] (POSIX) *)
(* ===================================================================== *)

Module Path.

(** The segment walk of Node's [normalizeString]: empty and ["."]
    segments vanish, [".."] removes the segment before it, and is kept
    only above the start of a relative path. [acc] is the result so far,
    last segment first. *)
Fixpoint normalizeSegments (allowAboveRoot : bool) (acc segs : list string)
  : list string :=
  match segs with
  | [] => rev acc
  | s :: rest =>
      if String.eqb s "" || String.eqb s "." then
        normalizeSegments allowAboveRoot acc rest
      else if String.eqb s ".." then
        match acc with
        | last :: acc' =>
            if String.eqb last ".." then
              normalizeSegments allowAboveRoot
                (if allowAboveRoot then ".." :: acc else acc) rest
            else normalizeSegments allowAboveRoot acc' rest
        | [] =>
            normalizeSegments allowAboveRoot
              (if allowAboveRoot then [".."] else []) rest
        end
      else normalizeSegments allowAboveRoot (s :: acc) rest
  end.

Definition normalizeString (p : string) (allowAboveRoot : bool) : string :=
  Js.join (normalizeSegments allowAboveRoot [] (Js.split p "/")) "/".

Definition isAbsolute (p : string) : bool :=
  match p with
  | String c _ => Ascii.eqb c "/"
  | EmptyString => false
  end.

(** One turn of the right-to-left loop of [resolve]: stop once the path
    is absolute, skip empty entries, otherwise prepend. *)
Definition prepend (p : string) (st : string * bool) : string * bool :=
  let (resolvedPath, resolvedAbsolute) := st in
  if resolvedAbsolute then st
  else if String.eqb p "" then st
  else (p ++ "/" ++ resolvedPath, isAbsolute p).

(** [path.resolve(p)] in a process whose working directory is [cwd]. *)
Definition resolve (cwd p : string) : string :=
  let (resolvedPath, resolvedAbsolute) := prepend cwd (prepend p ("", false)) in
  let n := normalizeString resolvedPath (negb resolvedAbsolute) in
  if resolvedAbsolute then "/" ++ n
  else if String.eqb n "" then "." else n.

(** The path components of a resolved path. *)
Definition components (p : string) : list string :=
  filter Js.truthy (Js.split p "/").

End Path.

(* ===================================================================== *)
(** * Roots and the boundary check *)
(* ===================================================================== *)

(** [interface Root { uri: string; name?: string }] *)
Record Root : Type := mkRoot {
  uri : string;
  name : option string
}.

(** [root.uri.replace("file://", "")] *)
Definition rootPath (root : Root) : string := Js.replace (uri root) "file://" "".

(** The callback of [availableRoots.some(...)] in the validation loop. *)
Definition withinRoot (cwd searchPath : string) (root : Root) : bool :=
  let resolvedSearchPath := Path.resolve cwd searchPath in
  let resolvedRootPath := Path.resolve cwd (rootPath root) in
  Js.startsWith resolvedSearchPath resolvedRootPath.

(** [isWithinRoots] of the validation loop. *)
Definition isWithinRoots (cwd : string) (roots : list Root)
  (searchPath : string) : bool :=
  existsb (withinRoot cwd searchPath) roots.

(** The reading of "within a root" by path components: the components of
    the resolved root are a prefix of the components of the resolved path. *)
Fixpoint componentPrefix (xs ys : list string) : bool :=
  match xs, ys with
  | [], _ => true
  | x :: xs', y :: ys' => String.eqb x y && componentPrefix xs' ys'
  | _ :: _, [] => false
  end.

Definition withinRootByComponents (cwd searchPath : string) (root : Root) : bool :=
  componentPrefix (Path.components (Path.resolve cwd (rootPath root)))
                  (Path.components (Path.resolve cwd searchPath)).

Definition isWithinRootsByComponents (cwd : string) (roots : list Root)
  (searchPath : string) : bool :=
  existsb (withinRootByComponents cwd searchPath) roots.

(* ===================================================================== *)
(** * Errors, completions and the server's world *)
(* ===================================================================== *)

(** A thrown JavaScript error: its [name] and its [message]. *)
Record JsError : Type := mkError {
  errName : string;
  message : string
}.

(** [new Error(msg)] *)
Definition Error (msg : string) : JsError := mkError "Error" msg.

(** An error inside a template literal: [`${error}`]. *)
Definition errorToString (e : JsError) : string :=
  errName e ++ ": " ++ message e.

(** How a piece of code ends: with a value, or by throwing (for an [async]
    function: a promise that resolves, or one that rejects). *)
Inductive Completion (A : Type) : Type :=
  | Normal (a : A)
  | Throw (e : JsError).
Arguments Normal {A} a.
Arguments Throw {A} e.

(** What the server does to the outside, in the order it does it: a
    [roots/list] request to the client, a call [console.error(text)], a
    call [console.error(label, error)] with an error object (recorded as
    called: how the console renders the error is not modelled), an
    [fs.access] call, a [spawn] of a child process. *)
Inductive Event : Type :=
  | ListRootsRequested
  | ConsoleError (text : string)
  | ConsoleErrorWith (label : string) (error : JsError)
  | Accessed (p : string)
  | Spawned (command : string) (argv : list string).

(** The state of a [RipgrepServer]: the field [availableRoots], the number
    of [roots/list] requests sent so far, and the effects so far. *)
Record World : Type := mkWorld {
  availableRoots : list Root;
  asked : nat;
  trace : list Event
}.

(** The reply of the client to one [roots/list] request: a response whose
    [roots] member may be missing, or a rejection. *)
Inductive ListRootsOutcome : Type :=
  | RootsResponse (roots : option (list Root))
  | RootsRejected (error : JsError).

(** The life of one [rg] child process as [executeRipgrep] sees it: [spawn]
    throws, or the child emits ['error'], or it emits ['close'] with its
    exit code ([null] when a signal ended it) after writing its output. *)
Inductive ChildOutcome : Type :=
  | SpawnThrows (error : JsError)
  | ErrorEvent (error : JsError)
  | CloseEvent (code : option Z) (stdout stderr : string).

(** Stateful code of the server that may throw. *)
Definition M (A : Type) : Type := World -> Completion A * World.

Definition ret {A} (a : A) : M A := fun w => (Normal a, w).

Definition bind {A B} (c : M A) (k : A -> M B) : M B :=
  fun w =>
    match c w with
    | (Normal a, w') => k a w'
    | (Throw e, w') => (Throw e, w')
    end.

Definition throw {A} (e : JsError) : M A := fun w => (Throw e, w).

(** [try { c } catch (error) { handler }] *)
Definition tryCatch {A} (c : M A) (handler : JsError -> M A) : M A :=
  fun w =>
    match c w with
    | (Normal a, w') => (Normal a, w')
    | (Throw e, w') => handler e w'
    end.

Definition emit (e : Event) : M unit :=
  fun w => (Normal tt, mkWorld (availableRoots w) (asked w) (app (trace w) [e])).

Definition getRoots : M (list Root) := fun w => (Normal (availableRoots w), w).

Definition setRoots (roots : list Root) : M unit :=
  fun w => (Normal tt, mkWorld roots (asked w) (trace w)).

Declare Scope js_scope.
Delimit Scope js_scope with js.
Notation "x <- c ;; k" := (bind c (fun x => k))
  (at level 61, c at next level, right associativity) : js_scope.
Notation "c ;; k" := (bind c (fun _ => k))
  (at level 61, right associativity) : js_scope.
Local Open Scope js_scope.

(* ===================================================================== *)
(** * The server *)
(* ===================================================================== *)

(** The [arguments] object of a [ripgrep_search] call; a missing member is
    [None]. *)
Record SearchArgs : Type := mkArgs {
  pattern : option string;
  path : option string;
  root_name : option string;
  case_sensitive : option bool;
  context_lines : option Z;
  max_results : option Z;
  max_matched_files : option Z
}.

(** A destructuring default: [{ field = d } = args]. *)
Definition orDefault {A} (d : A) (o : option A) : A :=
  match o with
  | Some v => v
  | None => d
  end.

(** An array element as [join] renders it: [undefined] gives the empty
    string. *)
Definition elementToString (o : option string) : string := orDefault "" o.

(** [root.name === root_name] for a string [root_name]. *)
Definition nameIs (root_name : string) (root : Root) : bool :=
  match name root with
  | Some n => String.eqb n root_name
  | None => false
  end.

Definition defaultRipgrepArgs : list string := ["--json"; "--no-heading"].

(** [xs.push(x)] and [xs.push(...ys)] *)
Definition push {A} (xs : list A) (x : A) : list A := app xs [x].
Definition pushAll {A} (xs ys : list A) : list A := app xs ys.

(** The flags pushed after [defaultRipgrepArgs], one [if] after the other. *)
Definition pushFlags (args : SearchArgs) (ripgrepArgs : list string) : list string :=
  let case_sensitive := orDefault false (case_sensitive args) in
  let context_lines := orDefault 0%Z (context_lines args) in
  let max_results := orDefault 1000%Z (max_results args) in
  let max_matched_files := orDefault 100%Z (max_matched_files args) in
  let ripgrepArgs :=
    if negb case_sensitive then push ripgrepArgs "--ignore-case"
    else ripgrepArgs in
  let ripgrepArgs :=
    if (context_lines >? 0)%Z
    then push ripgrepArgs ("--context=" ++ Js.ofNumber context_lines)
    else ripgrepArgs in
  let ripgrepArgs :=
    if (max_results >? 0)%Z
    then push ripgrepArgs ("--max-results=" ++ Js.ofNumber max_results)
    else ripgrepArgs in
  let ripgrepArgs :=
    if (max_matched_files >? 0)%Z
    then push ripgrepArgs ("--max-matched-files=" ++ Js.ofNumber max_matched_files)
    else ripgrepArgs in
  ripgrepArgs.

(** The argument vector: a copy of [defaultRipgrepArgs], the flags, then
    [push(pattern)], then [push(...searchPaths)]. *)
Definition buildRipgrepArgs (args : SearchArgs) (pat : string)
  (searchPaths : list string) : list string :=
  pushAll (push (pushFlags args defaultRipgrepArgs) pat) searchPaths.

(** [`${code}`] for the exit code of a child. *)
Definition codeToString (code : option Z) : string :=
  match code with
  | Some n => Js.ofNumber n
  | None => "null"
  end.

(** [code === 0 || code === 1] *)
Definition exitedCleanly (code : option Z) : bool :=
  match code with
  | Some n => (n =? 0)%Z || (n =? 1)%Z
  | None => false
  end.

Definition newline : ascii := "010"%char.

(** A value built by [JSON.parse]. JavaScript numbers are left abstract:
    the server only ever asks whether one is truthy. *)
Inductive JsValue (number : Type) : Type :=
  | JNull
  | JBool (b : bool)
  | JNumber (n : number)
  | JString (s : string)
  | JArray (items : list (JsValue number))
  | JObject (members : list (string * JsValue number)).
Arguments JNull {number}.
Arguments JBool {number} b.
Arguments JNumber {number} n.
Arguments JString {number} s.
Arguments JArray {number} items.
Arguments JObject {number} members.

(** The platform and the collaborators of the server. *)
Record Env (number : Type) : Type := mkEnv {
  (** [Boolean(n)] on a number *)
  numberTruthy : number -> bool;
  (** [JSON.parse]: [None] when it throws a [SyntaxError] *)
  JSON_parse : string -> option (JsValue number);
  (** the working directory of the process, for [path.resolve] *)
  cwd : string;
  (** the client's replies to the [roots/list] requests, by request number *)
  listRoots : nat -> ListRootsOutcome;
  (** [fs.access]: [None] when the path exists, else the rejection *)
  access : string -> option JsError;
  (** the [rg] executable, by argument vector *)
  rg : list string -> ChildOutcome
}.
Arguments mkEnv {number}.
Arguments numberTruthy {number} e n.
Arguments JSON_parse {number} e line.
Arguments cwd {number} e.
Arguments listRoots {number} e n.
Arguments access {number} e p.
Arguments rg {number} e argv.

Section Server.

Context {number : Type} (env : Env number).

(** ** Output adaptation *)

(** [Boolean(v)] *)
Definition Boolean (v : JsValue number) : bool :=
  match v with
  | JNull => false
  | JBool b => b
  | JNumber n => numberTruthy env n
  | JString s => Js.truthy s
  | JArray _ => true
  | JObject _ => true
  end.

(** Own member [key] of an object built by [JSON.parse], which holds each
    key once. *)
Fixpoint member (key : string) (members : list (string * JsValue number))
  : option (JsValue number) :=
  match members with
  | [] => None
  | (k, v) :: rest => if String.eqb k key then Some v else member key rest
  end.

(** [result.type]: a [TypeError] on [null], [undefined] ([None]) on every
    value without such a member. *)
Definition getType (result : JsValue number) : Completion (option (JsValue number)) :=
  match result with
  | JNull =>
      Throw (mkError "TypeError" "Cannot read properties of null (reading 'type')")
  | JObject members => Normal (member "type" members)
  | _ => Normal None
  end.

(** [v === "match"] *)
Definition isMatchString (v : option (JsValue number)) : bool :=
  match v with
  | Some (JString s) => String.eqb s "match"
  | _ => false
  end.

(** The callback [(result) => result.type === "match"]. *)
Definition typeIsMatch (result : JsValue number) : Completion bool :=
  match getType result with
  | Normal t => Normal (isMatchString t)
  | Throw e => Throw e
  end.

(** [xs.filter(f)] for a callback that may throw. *)
Fixpoint filterThrowing (f : JsValue number -> Completion bool) (xs : list (JsValue number))
  : Completion (list (JsValue number)) :=
  match xs with
  | [] => Normal []
  | x :: rest =>
      match f x with
      | Throw e => Throw e
      | Normal keep =>
          match filterThrowing f rest with
          | Throw e => Throw e
          | Normal kept => Normal (if keep then x :: kept else kept)
          end
      end
  end.

(** The callback of [map]: [JSON.parse(line)], or [null] when it throws. *)
Definition parseLine (line : string) : JsValue number :=
  match JSON_parse env line with
  | Some v => v
  | None => JNull
  end.

(** The chain [stdout.split("\n").filter(...).map(...).filter(Boolean)
    .filter(...)] of the ['close'] handler. *)
Definition parseOutput (stdout : string) : Completion (list (JsValue number)) :=
  let lines := filter (fun line => Js.truthy (Js.trim line)) (Js.split stdout newline) in
  let parsed := map parseLine lines in
  let truthyOnes := filter Boolean parsed in
  filterThrowing typeIsMatch truthyOnes.

(** The same, in the words of the specification: split on newlines, skip
    blank lines, drop the lines that do not parse, keep the records whose
    [type] is ["match"]. *)
Definition isBlank (line : string) : bool := String.eqb (Js.trim line) "".

Definition isMatchRecord (record : JsValue number) : bool :=
  match record with
  | JObject members => isMatchString (member "type" members)
  | _ => false
  end.

Fixpoint parsedRecords (lines : list string) : list (JsValue number) :=
  match lines with
  | [] => []
  | line :: rest =>
      match JSON_parse env line with
      | Some record => record :: parsedRecords rest
      | None => parsedRecords rest
      end
  end.

Definition matchRecords (stdout : string) : list (JsValue number) :=
  filter isMatchRecord
    (parsedRecords (filter (fun line => negb (isBlank line)) (Js.split stdout newline))).


(** ** The root registry *)

(** [this.server.request({ method: "roots/list" }, ListRootsResultSchema)] *)
Definition serverRequestRoots : M (option (list Root)) :=
  fun w =>
    let w' := mkWorld (availableRoots w) (S (asked w))
                      (app (trace w) [ListRootsRequested]) in
    match listRoots env (asked w) with
    | RootsResponse roots => (Normal roots, w')
    | RootsRejected error => (Throw error, w')
    end.

Definition requestRootsFromClient : M (list Root) :=
  tryCatch
    (response <- serverRequestRoots ;;
     setRoots (orDefault [] response) ;;
     getRoots)
    (fun error =>
       emit (ConsoleErrorWith "Failed to get roots from client:" error) ;;
       ret []).

(** One entry of [availableRoots] in the reply of [refresh_roots]. *)
Record RootInfo : Type := mkRootInfo {
  info_uri : string;
  info_name : option string;
  info_path : string
}.

Record RefreshReport : Type := mkRefreshReport {
  refresh_message : string;
  refresh_availableRoots : list RootInfo;
  refresh_totalRoots : nat
}.

(** One entry of [searchPaths] in the reply of [ripgrep_search]. *)
Record SearchPathInfo : Type := mkSearchPathInfo {
  sp_path : string;
  sp_rootName : option string
}.

Record SearchReport : Type := mkSearchReport {
  rep_pattern : string;
  rep_searchPaths : list SearchPathInfo;
  rep_results : list (JsValue number);
  rep_totalMatches : nat;
  rep_availableRoots : nat
}.

(** What a tool call returns: [content] holding the report (serialised by
    [JSON.stringify], which is not modelled), or [content] holding a text
    with [isError: true]. *)
Inductive ToolResult : Type :=
  | RefreshContent (body : RefreshReport)
  | SearchContent (body : SearchReport)
  | FailureContent (text : string).

Definition handleRefreshRoots : M ToolResult :=
  roots <- requestRootsFromClient ;;
  ret (RefreshContent
         (mkRefreshReport "Roots refreshed successfully"
            (map (fun root => mkRootInfo (uri root) (name root) (rootPath root)) roots)
            (List.length roots))).

(** ** Searching *)

(** [if (this.availableRoots.length === 0) await this.requestRootsFromClient()] *)
Definition ensureRoots : M unit :=
  roots <- getRoots ;;
  if Nat.eqb (List.length roots) 0
  then (requestRootsFromClient ;; ret tt)
  else ret tt.

(** The [if / else if] chain that determines [searchPaths]. *)
Definition determineSearchPaths (args : SearchArgs) : M (list string) :=
  roots <- getRoots ;;
  if Js.truthy_opt (path args) then
    ret [orDefault "" (path args)]
  else if Js.truthy_opt (root_name args) then
    let root_name := orDefault "" (root_name args) in
    match find (nameIs root_name) roots with
    | None =>
        throw (Error ("Root '" ++ root_name ++ "' not found. Available roots: "
                      ++ Js.join (map (fun r => elementToString (name r)) roots) ", "))
    | Some targetRoot => ret [rootPath targetRoot]
    end
  else if Nat.ltb 0 (List.length roots) then
    ret (map rootPath roots)
  else
    throw (Error ("No search paths available. The client has not provided any roots. "
                  ++ "Use refresh_roots tool or provide a specific path.")).

(** [await access(searchPath)] *)
Definition fsAccess (searchPath : string) : M unit :=
  emit (Accessed searchPath) ;;
  match access env searchPath with
  | None => ret tt
  | Some error => throw error
  end.

(** The body of the validation loop for one [searchPath]. *)
Definition validatePath (searchPath : string) : M unit :=
  tryCatch
    (fsAccess searchPath ;;
     roots <- getRoots ;;
     if Nat.ltb 0 (List.length roots) then
       let isWithinRoots := isWithinRoots (cwd env) roots searchPath in
       if negb isWithinRoots then
         throw (Error ("Search path '" ++ searchPath ++ "' is not within any allowed root"))
       else ret tt
     else ret tt)
    (fun error =>
       throw (Error ("Search path validation failed for '" ++ searchPath ++ "': "
                     ++ message error))).

(** [for (const searchPath of searchPaths) { ... }] *)
Fixpoint validatePaths (searchPaths : list string) : M unit :=
  match searchPaths with
  | [] => ret tt
  | searchPath :: rest => validatePath searchPath ;; validatePaths rest
  end.

(** [executeRipgrep]: the promise settles on the first of ['close'] and
    ['error']. *)
Definition executeRipgrep (args : list string) : M (list (JsValue number)) :=
  emit (Spawned "rg" args) ;;
  match rg env args with
  | SpawnThrows error => throw error
  | ErrorEvent error => throw (Error ("Failed to execute ripgrep: " ++ message error))
  | CloseEvent code stdout stderr =>
      if exitedCleanly code then
        match parseOutput stdout with
        | Normal results => ret results
        | Throw error =>
            throw (Error ("Failed to parse ripgrep output: " ++ errorToString error))
        end
      else
        throw (Error ("Ripgrep failed with code " ++ codeToString code ++ ": " ++ stderr))
  end.

(** [this.availableRoots.find((r) => sp.startsWith(...))?.name] *)
Definition rootNameOf (roots : list Root) (sp : string) : option string :=
  match find (fun r => Js.startsWith sp (rootPath r)) roots with
  | Some r => name r
  | None => None
  end.

(** The final [try { ... } catch (error) { ... }] of the handler. *)
Definition runSearch (pat : string) (searchPaths ripgrepArgs : list string)
  : M ToolResult :=
  tryCatch
    (results <- executeRipgrep ripgrepArgs ;;
     roots <- getRoots ;;
     ret (SearchContent
            (mkSearchReport pat
               (map (fun sp => mkSearchPathInfo sp (rootNameOf roots sp)) searchPaths)
               results
               (List.length results)
               (List.length roots))))
    (fun error => ret (FailureContent ("Search failed: " ++ message error))).

Definition handleRipgrepSearch (args : SearchArgs) : M ToolResult :=
  if negb (Js.truthy_opt (pattern args)) then
    throw (Error "Pattern is required")
  else
    let pat := orDefault "" (pattern args) in
    ensureRoots ;;
    searchPaths <- determineSearchPaths args ;;
    validatePaths searchPaths ;;
    let ripgrepArgs := buildRipgrepArgs args pat searchPaths in
    runSearch pat searchPaths ripgrepArgs.

End Server.

(** The effects between two worlds of one run. *)
Definition eventsSince (w w' : World) : list Event :=
  skipn (List.length (trace w)) (trace w').

(** [p] was checked with [access] before the child [argv] was spawned. *)
Definition accessedBeforeSpawn (p : string) (argv : list string)
  (events : list Event) : Prop :=
  exists before after,
    events = (before ++ Accessed p :: after)%list /\ In (Spawned "rg" argv) after.

(** The text of the failure payload for a child that did not end well. *)
Definition engineFailureText (child : ChildOutcome) : option string :=
  match child with
  | SpawnThrows error => Some ("Search failed: " ++ message error)
  | ErrorEvent error =>
      Some ("Search failed: Failed to execute ripgrep: " ++ message error)
  | CloseEvent code stdout stderr =>
      if exitedCleanly code then None
      else Some ("Search failed: Ripgrep failed with code "
                 ++ codeToString code ++ ": " ++ stderr)
  end.

(** The world after [access] was called on each of [paths]. *)
Definition accessedWorld (w : World) (paths : list string) : World :=
  mkWorld (availableRoots w) (asked w) (trace w ++ map Accessed paths)%list.

(** What the validation loop asks of one path: it exists and, when there
    are roots, [isWithinRoots] holds of it. *)
Definition passesValidation {number : Type} (env : Env number) (roots : list Root)
  (searchPath : string) : bool :=
  match access env searchPath with
  | Some _ => false
  | None =>
      if Nat.ltb 0 (List.length roots)
      then isWithinRoots (cwd env) roots searchPath
      else true
  end.

(** The error of the validation loop for a path that does not pass. *)
Definition validationError {number : Type} (env : Env number) (searchPath : string)
  : JsError :=
  Error ("Search path validation failed for '" ++ searchPath ++ "': "
         ++ match access env searchPath with
            | Some error => message error
            | None => "Search path '" ++ searchPath ++ "' is not within any allowed root"
            end).

(** The paths the validation loop reaches: all up to and including the
    first that does not pass. *)
Fixpoint reachedPaths (passes : string -> bool) (paths : list string) : list string :=
  match paths with
  | [] => []
  | p :: rest => p :: (if passes p then reachedPaths passes rest else [])
  end.

(** The first path that does not pass, if any. *)
Definition firstRejected (passes : string -> bool) (paths : list string)
  : option string :=
  find (fun p => negb (passes p)) paths.

(** The request [args] with another [root_name]. *)
Definition withRootName (args : SearchArgs) (root_name : option string) : SearchArgs :=
  mkArgs (pattern args) (path args) root_name (case_sensitive args)
         (context_lines args) (max_results args) (max_matched_files args).

(** [Number.isSafeInteger(n)] for an integer: the integers that a
    JavaScript number holds exactly and renders by their decimal digits. *)
Definition isSafeInteger (n : Z) : bool :=
  (Z.abs n <=? 2 ^ 53 - 1)%Z.

(** The numeric options of a request, where given, are safe integers. *)
Definition numericOptionsAreSafe (args : SearchArgs) : bool :=
  isSafeInteger (orDefault 0%Z (context_lines args))
  && isSafeInteger (orDefault 1000%Z (max_results args))
  && isSafeInteger (orDefault 100%Z (max_matched_files args)).

(** A string without a path separator, and a path segment: a non-empty
    string without a separator. *)
Fixpoint slashFree (s : string) : bool :=
  match s with
  | EmptyString => true
  | String c s' => negb (Ascii.eqb c "/") && slashFree s'
  end.

Definition isSegment (s : string) : bool := Js.truthy s && slashFree s.

(* ===================================================================== *)
(** * The entry points of the server *)
(* ===================================================================== *)

Section EntryPoints.

Context {number : Type} (env : Env number).

(** The handler of [CallToolRequestSchema]. [args] is
    [request.params.arguments], which a client may leave out; the
    destructuring at the head of [handleRipgrepSearch] then throws a
    [TypeError]. *)
Definition callTool (toolName : string) (args : option SearchArgs) : M ToolResult :=
  if String.eqb toolName "ripgrep_search" then
    match args with
    | Some args => handleRipgrepSearch env args
    | None =>
        throw (mkError "TypeError"
                 "Cannot destructure property 'pattern' of 'args' as it is undefined.")
    end
  else if String.eqb toolName "refresh_roots" then
    handleRefreshRoots env
  else
    throw (Error ("Unknown tool: " ++ toolName)).

(** The handler of [RootsListChangedNotificationSchema]. *)
Definition onRootsListChanged : M unit :=
  emit (ConsoleError "Roots changed, refreshing...") ;;
  requestRootsFromClient env ;;
  ret tt.

(** [root.name || "Unnamed"] *)
Definition nameOrUnnamed (root : Root) : string :=
  if Js.truthy_opt (name root) then orDefault "" (name root) else "Unnamed".

(** [roots.forEach((root) => console.error(...))] *)
Fixpoint announceEach (roots : list Root) : M unit :=
  match roots with
  | [] => ret tt
  | root :: rest =>
      emit (ConsoleError ("  - " ++ nameOrUnnamed root ++ ": " ++ uri root)) ;;
      announceEach rest
  end.

(** The callback that [run] schedules with [setTimeout]: the first request
    for roots and its report on [console.error]. *)
Definition initialRootsRequest : M unit :=
  roots <- requestRootsFromClient env ;;
  emit (ConsoleError ("MCP Ripgrep server running. Available roots: "
                      ++ Js.ofNumber (Z.of_nat (List.length roots)))) ;;
  announceEach roots.

End EntryPoints.

(** The number of child processes spawned among [events]. *)
Definition isSpawn (e : Event) : bool :=
  match e with
  | Spawned _ _ => true
  | _ => false
  end.

Definition isListRoots (e : Event) : bool :=
  match e with
  | ListRootsRequested => true
  | _ => false
  end.

Definition spawnCount (events : list Event) : nat :=
  List.length (filter isSpawn events).

(** [pat] occurs in [s]. *)
Definition occursIn (pat s : string) : Prop :=
  exists before after, s = before ++ pat ++ after.

(** A request with no scope: neither a path nor a root name that counts. *)
Definition unscoped (args : SearchArgs) : bool :=
  negb (Js.truthy_opt (path args)) && negb (Js.truthy_opt (root_name args)).

(* ===================================================================== *)
(** * Sample environments *)
(* ===================================================================== *)

(** The double quote, and the line of a record that has only a [type]. *)
Definition quote : string := String "034"%char EmptyString.

Definition recordLine (kind : string) : string :=
  "{" ++ quote ++ "type" ++ quote ++ ":" ++ quote ++ kind ++ quote ++ "}".

(** A stand-in for [JSON.parse] in the samples: it knows the record lines
    of kind begin, match and end and the literal [null], and throws on
    everything else. *)
Definition sampleParse (line : string) : option (JsValue Z) :=
  if String.eqb line (recordLine "begin") then Some (JObject [("type", JString "begin")])
  else if String.eqb line (recordLine "match") then Some (JObject [("type", JString "match")])
  else if String.eqb line (recordLine "end") then Some (JObject [("type", JString "end")])
  else if String.eqb line "null" then Some JNull
  else None.

(** [ENOENT] as [fs.access] reports it. *)
Definition enoent (p : string) : JsError :=
  Error ("ENOENT: no such file or directory, access '" ++ p ++ "'").

(** An environment whose client always gives [reply], whose disk holds the
    paths [existing], and whose [rg] always ends as [child]. *)
Definition sampleEnv (reply : ListRootsOutcome) (existing : list string)
  (child : ChildOutcome) : Env Z :=
  mkEnv (fun n => negb (n =? 0)%Z)
        sampleParse
        "/home/user"
        (fun _ => reply)
        (fun p => if existsb (String.eqb p) existing then None else Some (enoent p))
        (fun _ => child).

Definition projectRoot : Root := mkRoot "file:///root" (Some "project").

Definition clientDown : ListRootsOutcome :=
  RootsRejected (Error "Method not found").

Definition noMatches : ChildOutcome := CloseEvent (Some 1%Z) "" "".

(** A server that has not asked for roots yet. *)
Definition freshWorld : World := mkWorld [] 0 [].

(** A server that learnt of [projectRoot] earlier. *)
Definition rootedWorld : World := mkWorld [projectRoot] 1 [ListRootsRequested].

Definition offlineEnv : Env Z :=
  sampleEnv clientDown ["/root"; "/root-2"; "/srv"] noMatches.

Definition onlineEnv : Env Z :=
  sampleEnv (RootsResponse (Some [projectRoot])) ["/root"; "/root-2"; "/srv"] noMatches.

Definition brokenEngineEnv : Env Z :=
  sampleEnv clientDown ["/root"] (CloseEvent (Some 2%Z) "" "regex parse error").

Definition nl : string := String newline EmptyString.

Definition mixedOutput : string :=
  recordLine "begin" ++ nl ++ recordLine "match" ++ nl ++ "{oops" ++ nl
  ++ recordLine "end" ++ nl ++ "null" ++ nl ++ "  " ++ nl.

(** A request with a pattern and the defaults for every option. *)
Definition request (pat : string) (path root_name : option string) : SearchArgs :=
  mkArgs (Some pat) path root_name None None None None.

Definition todoArgv (target : string) : list string :=
  ["--json"; "--no-heading"; "--ignore-case"; "--max-results=1000";
   "--max-matched-files=100"; "TODO"; target].


(** A client whose reply carries no roots. *)
Definition emptyReplyEnv : Env Z :=
  sampleEnv (RootsResponse None) ["/root"; "/root-2"; "/srv"] noMatches.

(** A registry of three roots, two of which bear the same name. *)
Definition docsRoot : Root := mkRoot "file:///srv" (Some "docs").

Definition twinRoot : Root := mkRoot "file:///root-2" (Some "project").

Definition sharedWorld : World :=
  mkWorld [docsRoot; projectRoot; twinRoot] 1 [ListRootsRequested].

(** The report of the search for [TODO] in [/root] that finds nothing. *)
Definition emptyReport : @SearchReport Z :=
  mkSearchReport "TODO" [mkSearchPathInfo "/root" (Some "project")] [] 0 1.

(* ===================================================================== *)
(** * Properties *)
(* ===================================================================== *)

Section Registry.

Context {number : Type} (env : Env number).

Lemma serverRequestRoots_eq (w : World) :
  serverRequestRoots env w =
  (match listRoots env (asked w) with
   | RootsResponse roots => Normal roots
   | RootsRejected error => Throw error
   end,
   mkWorld (availableRoots w) (S (asked w)) (trace w ++ [ListRootsRequested])%list).
Proof.
  unfold serverRequestRoots. destruct (listRoots env (asked w)); reflexivity.
Qed.

(** What a refresh does, by the reply of the client. *)
Lemma requestRootsFromClient_eq (w : World) :
  requestRootsFromClient env w =
  match listRoots env (asked w) with
  | RootsResponse roots =>
      (Normal (orDefault [] roots),
       mkWorld (orDefault [] roots) (S (asked w)) (trace w ++ [ListRootsRequested])%list)
  | RootsRejected error =>
      (Normal [],
       mkWorld (availableRoots w) (S (asked w))
         ((trace w ++ [ListRootsRequested])
          ++ [ConsoleErrorWith "Failed to get roots from client:" error])%list)
  end.
Proof.
  unfold requestRootsFromClient, tryCatch, bind.
  rewrite serverRequestRoots_eq.
  destruct (listRoots env (asked w)); reflexivity.
Qed.

Lemma requestRootsFromClient_returns (w : World) :
  exists roots, fst (requestRootsFromClient env w) = Normal roots.
Proof.
  rewrite requestRootsFromClient_eq.
  destruct (listRoots env (asked w)); eexists; reflexivity.
Qed.

End Registry.

Section RegistryClaims.

Context {number : Type} (env : Env number).

(** The refresh as the code is written. It never throws. When the client
    answers, the whole registry is replaced by the roots of the answer (by
    the empty array when the answer has none) and these are returned.
    When the request fails, [console.error] is called with the error and
    the empty array is returned, but the registry is not assigned and
    keeps the roots it had. The caller [handleRefreshRoots] returns a
    report in both cases. *)
Theorem refresh_replaces_on_reply_keeps_on_failure (w : World) :
  (forall roots,
      listRoots env (asked w) = RootsResponse roots ->
      fst (requestRootsFromClient env w) = Normal (orDefault [] roots) /\
      availableRoots (snd (requestRootsFromClient env w)) = orDefault [] roots) /\
  (forall error,
      listRoots env (asked w) = RootsRejected error ->
      fst (requestRootsFromClient env w) = Normal [] /\
      availableRoots (snd (requestRootsFromClient env w)) = availableRoots w /\
      eventsSince w (snd (requestRootsFromClient env w)) =
        [ListRootsRequested;
         ConsoleErrorWith "Failed to get roots from client:" error]) /\
  (exists roots, fst (requestRootsFromClient env w) = Normal roots) /\
  (exists body, fst (handleRefreshRoots env w) = Normal (RefreshContent body)).
Proof.
  repeat split.
  - rewrite requestRootsFromClient_eq, H. reflexivity.
  - rewrite requestRootsFromClient_eq, H. reflexivity.
  - rewrite requestRootsFromClient_eq, H. reflexivity.
  - rewrite requestRootsFromClient_eq, H. reflexivity.
  - rewrite requestRootsFromClient_eq, H. unfold eventsSince. cbn [trace snd].
    rewrite <- app_assoc.
    induction (trace w) as [|e t IH]; [reflexivity | exact IH].
  - apply requestRootsFromClient_returns.
  - unfold handleRefreshRoots, bind.
    rewrite requestRootsFromClient_eq.
    destruct (listRoots env (asked w)); eexists; reflexivity.
Qed.

End RegistryClaims.

Lemma refresh_replaces_on_reply_keeps_on_failure_witness :
  availableRoots (snd (requestRootsFromClient onlineEnv freshWorld)) = [projectRoot] /\
  fst (requestRootsFromClient offlineEnv rootedWorld) = Normal [] /\
  availableRoots (snd (requestRootsFromClient offlineEnv rootedWorld)) = [projectRoot].
Proof.
  split.
  - apply (proj1 (refresh_replaces_on_reply_keeps_on_failure onlineEnv freshWorld)
             (Some [projectRoot])).
    reflexivity.
  - destruct (proj1 (proj2 (refresh_replaces_on_reply_keeps_on_failure offlineEnv rootedWorld))
                (Error "Method not found") eq_refl) as (Hret & Hkeep & _).
    split; [exact Hret | exact Hkeep].
Defined.

(** C2 at the failing input: the registry holds [projectRoot] and the
    client is down. The refresh returns the empty array as the refreshed
    set, yet the registry is not replaced by it and still holds
    [projectRoot]; on the sibling path, a reply that carries no roots does
    empty the registry. *)
Lemma refresh_failure_does_not_empty_registry :
  listRoots offlineEnv (asked rootedWorld) = clientDown /\
  availableRoots rootedWorld = [projectRoot] /\
  fst (requestRootsFromClient offlineEnv rootedWorld) = Normal [] /\
  availableRoots (snd (requestRootsFromClient offlineEnv rootedWorld)) = [projectRoot] /\
  availableRoots (snd (requestRootsFromClient offlineEnv rootedWorld)) <> [] /\
  availableRoots (snd (requestRootsFromClient emptyReplyEnv rootedWorld)) = [].
Proof.
  split; [reflexivity|]. split; [reflexivity|].
  split; [reflexivity|]. split; [reflexivity|].
  split; [vm_compute; discriminate | reflexivity].
Qed.

Section Adaptation.

Context {number : Type} (env : Env number).

(** A value that [filter(Boolean)] lets through has a readable [type]. *)
Lemma typeIsMatch_truthy (v : JsValue number) :
  Boolean env v = true -> typeIsMatch v = Normal (isMatchRecord v).
Proof.
  destruct v; cbn; try reflexivity. discriminate.
Qed.

(** A value that [filter(Boolean)] drops is no match record. *)
Lemma isMatchRecord_falsy (v : JsValue number) :
  Boolean env v = false -> isMatchRecord v = false.
Proof.
  destruct v; cbn; try reflexivity. discriminate.
Qed.

Lemma filterThrowing_truthy (xs : list (JsValue number)) :
  Forall (fun v => Boolean env v = true) xs ->
  filterThrowing typeIsMatch xs = Normal (filter isMatchRecord xs).
Proof.
  induction 1 as [|v xs Hv _ IH]; cbn [filterThrowing filter].
  - reflexivity.
  - rewrite (typeIsMatch_truthy v Hv), IH. reflexivity.
Qed.

Lemma filter_Boolean_truthy (xs : list (JsValue number)) :
  Forall (fun v => Boolean env v = true) (filter (Boolean env) xs).
Proof.
  apply Forall_forall. intros v Hin. apply filter_In in Hin. tauto.
Qed.

(** Dropping the falsy values first loses no match record, and the [null]
    that stands for an unparsable line is among the dropped. *)
Lemma matches_of_parsed_lines (lines : list string) :
  filter isMatchRecord (filter (Boolean env) (map (parseLine env) lines)) =
  filter isMatchRecord (parsedRecords env lines).
Proof.
  induction lines as [|line rest IH]; [reflexivity|].
  cbn [map parsedRecords]. unfold parseLine at 1.
  destruct (JSON_parse env line) as [v|].
  - cbn [filter]. destruct (Boolean env v) eqn:Hb.
    + cbn [filter]. rewrite IH. reflexivity.
    + rewrite (isMatchRecord_falsy v Hb). exact IH.
  - cbn [filter Boolean]. exact IH.
Qed.

Lemma parseOutput_eq (stdout : string) :
  parseOutput env stdout = Normal (matchRecords env stdout).
Proof.
  unfold parseOutput, matchRecords.
  rewrite filterThrowing_truthy by apply filter_Boolean_truthy.
  rewrite matches_of_parsed_lines. reflexivity.
Qed.

Lemma exitedCleanly_true (code : option Z) :
  exitedCleanly code = true <-> code = Some 0%Z \/ code = Some 1%Z.
Proof.
  destruct code as [n|]; cbn.
  - rewrite orb_true_iff, !Z.eqb_eq. split; intros [H|H].
    + left; now subst. + right; now subst.
    + left; congruence. + right; congruence.
  - split; [discriminate | intros [H|H]; discriminate].
Qed.

Lemma exitedCleanly_false (code : option Z) :
  code <> Some 0%Z -> code <> Some 1%Z -> exitedCleanly code = false.
Proof.
  intros H0 H1. destruct (exitedCleanly code) eqn:E; [|reflexivity].
  apply exitedCleanly_true in E. tauto.
Qed.

(** [executeRipgrep], by the fate of the child. *)
Lemma executeRipgrep_eq (argv : list string) (w : World) :
  executeRipgrep env argv w =
  (match rg env argv with
   | SpawnThrows error => Throw error
   | ErrorEvent error => Throw (Error ("Failed to execute ripgrep: " ++ message error))
   | CloseEvent code stdout stderr =>
       if exitedCleanly code then Normal (matchRecords env stdout)
       else Throw (Error ("Ripgrep failed with code " ++ codeToString code ++ ": " ++ stderr))
   end,
   mkWorld (availableRoots w) (asked w) (trace w ++ [Spawned "rg" argv])%list).
Proof.
  unfold executeRipgrep, bind, emit.
  destruct (rg env argv) as [e|e|code stdout stderr]; try reflexivity.
  destruct (exitedCleanly code); [|reflexivity].
  rewrite parseOutput_eq. reflexivity.
Qed.

(** [runSearch] always returns: a report when the child ended with code 0
    or 1, the failure payload otherwise. *)
Lemma runSearch_eq (pat : string) (searchPaths argv : list string) (w : World) :
  runSearch env pat searchPaths argv w =
  (match rg env argv with
   | CloseEvent code stdout stderr =>
       if exitedCleanly code then
         Normal (SearchContent
                   (mkSearchReport pat
                      (map (fun sp => mkSearchPathInfo sp (rootNameOf (availableRoots w) sp))
                           searchPaths)
                      (matchRecords env stdout)
                      (List.length (matchRecords env stdout))
                      (List.length (availableRoots w))))
       else Normal (FailureContent (orDefault "" (engineFailureText (rg env argv))))
   | _ => Normal (FailureContent (orDefault "" (engineFailureText (rg env argv))))
   end,
   mkWorld (availableRoots w) (asked w) (trace w ++ [Spawned "rg" argv])%list).
Proof.
  unfold runSearch, tryCatch, bind. rewrite executeRipgrep_eq.
  destruct (rg env argv) as [e|e|code stdout stderr]; try reflexivity.
  cbn [engineFailureText]. destruct (exitedCleanly code); reflexivity.
Qed.

End Adaptation.

Section AdaptationClaims.

Context {number : Type} (env : Env number).

(** C8: for every standard-output text the adapted sequence is exactly the
    records obtained by splitting on newlines, skipping blank lines,
    dropping the lines that do not parse and keeping, in the order of
    emission, the parsed records whose [type] is ["match"]; the adaptation
    never throws, and the length of the result is the number of those
    records. *)
Theorem output_adaptation_keeps_match_records (stdout : string) :
  exists results,
    parseOutput env stdout = Normal results /\
    results = matchRecords env stdout /\
    List.length results = List.length (matchRecords env stdout).
Proof.
  exists (matchRecords env stdout).
  split; [apply parseOutput_eq | split; reflexivity].
Qed.

(** C7: when the child closes with exit code 0 or 1 its output is parsed
    and the search returns a report of the match records; with exit code 1
    and empty output the report has no results and [totalMatches = 0];
    with any other exit code [executeRipgrep] fails with an error that
    carries the code and the standard-error text, and the search returns
    the failure payload built from it. *)
Theorem exit_codes_0_and_1_parse_others_fail
  (pat : string) (searchPaths argv : list string) (w : World)
  (code : option Z) (stdout stderr : string) :
  rg env argv = CloseEvent code stdout stderr ->
  (code = Some 0%Z \/ code = Some 1%Z ->
   fst (executeRipgrep env argv w) = Normal (matchRecords env stdout) /\
   exists body,
     fst (runSearch env pat searchPaths argv w) = Normal (SearchContent body) /\
     rep_results body = matchRecords env stdout /\
     rep_totalMatches body = List.length (matchRecords env stdout)) /\
  (code = Some 1%Z -> stdout = "" ->
   fst (executeRipgrep env argv w) = Normal [] /\
   exists body,
     fst (runSearch env pat searchPaths argv w) = Normal (SearchContent body) /\
     rep_results body = [] /\
     rep_totalMatches body = 0) /\
  (code <> Some 0%Z -> code <> Some 1%Z ->
   fst (executeRipgrep env argv w) =
     Throw (Error ("Ripgrep failed with code " ++ codeToString code ++ ": " ++ stderr)) /\
   fst (runSearch env pat searchPaths argv w) =
     Normal (FailureContent
               ("Search failed: Ripgrep failed with code "
                ++ codeToString code ++ ": " ++ stderr))).
Proof.
  intros Hrg. rewrite executeRipgrep_eq, runSearch_eq, Hrg. cbn [fst].
  split; [|split].
  - intros Hcode. apply exitedCleanly_true in Hcode. rewrite Hcode.
    split; [reflexivity|]. eexists. split; [reflexivity|]. split; reflexivity.
  - intros -> ->. cbn [exitedCleanly Z.eqb orb].
    split; [reflexivity|]. eexists. split; [reflexivity|]. split; reflexivity.
  - intros H0 H1. cbn [engineFailureText].
    rewrite (exitedCleanly_false code H0 H1). split; reflexivity.
Qed.

End AdaptationClaims.

Lemma exit_codes_0_and_1_parse_others_fail_witness :
  fst (executeRipgrep offlineEnv ["--json"; "x"] rootedWorld) = Normal [] /\
  fst (executeRipgrep brokenEngineEnv ["--json"; "("] rootedWorld) =
    Throw (Error "Ripgrep failed with code 2: regex parse error").
Proof.
  split.
  - apply (proj1 (proj2 (exit_codes_0_and_1_parse_others_fail offlineEnv
                           "x" [] ["--json"; "x"] rootedWorld (Some 1%Z) "" "" eq_refl)));
      reflexivity.
  - apply (proj2 (proj2 (exit_codes_0_and_1_parse_others_fail brokenEngineEnv
                           "(" [] ["--json"; "("] rootedWorld (Some 2%Z) ""
                           "regex parse error" eq_refl)));
      discriminate.
Defined.

(** The sample of the specification: a begin, a match and an end record,
    a malformed fragment and a trailing blank line. *)
Example mixed_records_keep_the_match :
  parseOutput offlineEnv mixedOutput = Normal [JObject [("type", JString "match")]].
Proof. reflexivity. Qed.

Section Handler.

Context {number : Type} (env : Env number).

Lemma eventsSince_app (w w' : World) (events : list Event) :
  trace w' = (trace w ++ events)%list -> eventsSince w w' = events.
Proof.
  unfold eventsSince. intros ->.
  induction (trace w) as [|e t IH]; [reflexivity | exact IH].
Qed.

Lemma ensureRoots_eq (w : World) :
  ensureRoots env w =
  (Normal tt,
   if Nat.eqb (List.length (availableRoots w)) 0
   then snd (requestRootsFromClient env w) else w).
Proof.
  unfold ensureRoots, bind, getRoots.
  destruct (Nat.eqb (List.length (availableRoots w)) 0); [|reflexivity].
  rewrite requestRootsFromClient_eq.
  destruct (listRoots env (asked w)); reflexivity.
Qed.

(** The refresh of [ensureRoots] spawns nothing and checks no path. *)
Lemma ensureRoots_events (w : World) :
  exists events,
    trace (snd (ensureRoots env w)) = (trace w ++ events)%list /\
    (forall cmd argv, ~ In (Spawned cmd argv) events) /\
    (forall p, ~ In (Accessed p) events).
Proof.
  rewrite ensureRoots_eq. cbn [snd].
  destruct (Nat.eqb (List.length (availableRoots w)) 0).
  - rewrite requestRootsFromClient_eq.
    destruct (listRoots env (asked w)) as [roots|error]; cbn [snd trace].
    + exists [ListRootsRequested]. split; [reflexivity|].
      split; intros; intros [H|[]]; discriminate.
    + eexists. split; [rewrite <- app_assoc; reflexivity|].
      split; intros; intros [H|[H|[]]]; discriminate.
  - exists []. rewrite app_nil_r. split; [reflexivity|]. split; intros; intros [].
Qed.

Lemma determineSearchPaths_world (args : SearchArgs) (w : World) :
  snd (determineSearchPaths args w) = w.
Proof.
  unfold determineSearchPaths, bind, getRoots, ret, throw.
  destruct (Js.truthy_opt (path args)); [reflexivity|].
  destruct (Js.truthy_opt (root_name args)).
  - destruct (find _ (availableRoots w)); reflexivity.
  - destruct (Nat.ltb 0 (List.length (availableRoots w))); reflexivity.
Qed.

Lemma validatePath_eq (searchPath : string) (w : World) :
  validatePath env searchPath w =
  (if passesValidation env (availableRoots w) searchPath
   then Normal tt else Throw (validationError env searchPath),
   accessedWorld w [searchPath]).
Proof.
  unfold passesValidation, validationError, accessedWorld.
  cbv beta iota zeta delta
    [validatePath tryCatch bind fsAccess emit getRoots ret throw map].
  destruct w as [roots n t].
  destruct (access env searchPath) as [error|]; [reflexivity|].
  cbn [availableRoots asked trace].
  destruct (Nat.ltb 0 (List.length roots)); [|reflexivity].
  destruct (isWithinRoots (cwd env) roots searchPath); reflexivity.
Qed.

Lemma accessedWorld_cons (w : World) (p : string) (rest : list string) :
  accessedWorld (accessedWorld w [p]) rest = accessedWorld w (p :: rest).
Proof.
  unfold accessedWorld. cbn [availableRoots asked trace map].
  rewrite <- app_assoc. reflexivity.
Qed.

(** The loop calls [access] on the paths up to the first that does not
    pass and throws there; it returns when all pass. *)
Lemma validatePaths_eq (searchPaths : list string) (w : World) :
  validatePaths env searchPaths w =
  (match firstRejected (passesValidation env (availableRoots w)) searchPaths with
   | Some p => Throw (validationError env p)
   | None => Normal tt
   end,
   accessedWorld w (reachedPaths (passesValidation env (availableRoots w)) searchPaths)).
Proof.
  revert w. induction searchPaths as [|p rest IH]; intros w.
  - unfold accessedWorld. cbn. rewrite app_nil_r. destruct w; reflexivity.
  - cbn [validatePaths]. unfold bind. rewrite validatePath_eq.
    unfold firstRejected. cbn [find reachedPaths].
    destruct (passesValidation env (availableRoots w) p) eqn:Hp; cbn [negb].
    + rewrite IH. cbn [accessedWorld availableRoots].
      rewrite accessedWorld_cons. reflexivity.
    + reflexivity.
Qed.

Lemma firstRejected_none (passes : string -> bool) (paths : list string) :
  firstRejected passes paths = None ->
  reachedPaths passes paths = paths /\ Forall (fun p => passes p = true) paths.
Proof.
  unfold firstRejected. induction paths as [|p rest IH]; cbn [find reachedPaths].
  - intros _. split; [reflexivity | constructor].
  - destruct (passes p) eqn:Hp; cbn [negb]; [|discriminate].
    intros H. destruct (IH H) as [-> Hall]. split; [reflexivity|].
    constructor; assumption.
Qed.

Lemma firstRejected_some (passes : string -> bool) (paths : list string) (p : string) :
  firstRejected passes paths = Some p -> In p paths /\ passes p = false.
Proof.
  unfold firstRejected. intros H. apply find_some in H as [Hin Hp].
  split; [exact Hin|]. now apply negb_true_iff in Hp.
Qed.

End Handler.

Section HandlerRuns.

Context {number : Type} (env : Env number).

Lemma ensureRoots_run (w : World) :
  ensureRoots env w = (Normal tt, snd (ensureRoots env w)).
Proof. rewrite ensureRoots_eq. reflexivity. Qed.

Lemma determineSearchPaths_run (args : SearchArgs) (w : World) :
  determineSearchPaths args w = (fst (determineSearchPaths args w), w).
Proof.
  rewrite <- (determineSearchPaths_world args w) at 3.
  apply surjective_pairing.
Qed.

(** The handler, step by step, for a request with a pattern. *)
Lemma handleRipgrepSearch_eq (args : SearchArgs) (w : World) :
  Js.truthy_opt (pattern args) = true ->
  handleRipgrepSearch env args w =
  match fst (determineSearchPaths args (snd (ensureRoots env w))) with
  | Throw e => (Throw e, snd (ensureRoots env w))
  | Normal searchPaths =>
      match firstRejected
              (passesValidation env (availableRoots (snd (ensureRoots env w))))
              searchPaths with
      | Some p =>
          (Throw (validationError env p),
           accessedWorld (snd (ensureRoots env w))
             (reachedPaths
                (passesValidation env (availableRoots (snd (ensureRoots env w))))
                searchPaths))
      | None =>
          runSearch env (orDefault "" (pattern args)) searchPaths
            (buildRipgrepArgs args (orDefault "" (pattern args)) searchPaths)
            (accessedWorld (snd (ensureRoots env w)) searchPaths)
      end
  end.
Proof.
  intros Hpat. unfold handleRipgrepSearch. rewrite Hpat. cbn [negb].
  pose proof (ensureRoots_run w) as Hens.
  set (w1 := snd (ensureRoots env w)) in *.
  pose proof (determineSearchPaths_run args w1) as Hdet.
  set (scope := fst (determineSearchPaths args w1)) in *.
  unfold bind at 1. rewrite Hens.
  unfold bind at 1. rewrite Hdet.
  destruct scope as [searchPaths|e]; [|reflexivity].
  unfold bind at 1. rewrite validatePaths_eq.
  destruct (firstRejected _ searchPaths) as [p|] eqn:Hrej; [reflexivity|].
  apply firstRejected_none in Hrej as [-> _]. reflexivity.
Qed.

Lemma handleRipgrepSearch_no_pattern (args : SearchArgs) (w : World) :
  Js.truthy_opt (pattern args) = false ->
  handleRipgrepSearch env args w = (Throw (Error "Pattern is required"), w).
Proof.
  intros Hpat. unfold handleRipgrepSearch. rewrite Hpat. reflexivity.
Qed.

(** The registry is not touched after [ensureRoots]. *)
Lemma handleRipgrepSearch_roots (args : SearchArgs) (w : World) :
  Js.truthy_opt (pattern args) = true ->
  availableRoots (snd (handleRipgrepSearch env args w)) =
  availableRoots (snd (ensureRoots env w)).
Proof.
  intros Hpat. rewrite (handleRipgrepSearch_eq args w Hpat).
  destruct (fst (determineSearchPaths _ _)) as [searchPaths|e]; [|reflexivity].
  destruct (firstRejected _ searchPaths); [reflexivity|].
  rewrite runSearch_eq. reflexivity.
Qed.

(** The effects of a run that spawns the engine: those of [ensureRoots],
    one [access] per search path, then the spawn; and the run returns. *)
Lemma handleRipgrepSearch_spawn (args : SearchArgs) (w : World)
  (cmd : string) (argv : list string) :
  In (Spawned cmd argv) (eventsSince w (snd (handleRipgrepSearch env args w))) ->
  exists searchPaths,
    Js.truthy_opt (pattern args) = true /\
    fst (determineSearchPaths args (snd (ensureRoots env w))) = Normal searchPaths /\
    Forall (fun p => passesValidation env (availableRoots (snd (ensureRoots env w))) p
                     = true) searchPaths /\
    cmd = "rg" /\
    argv = buildRipgrepArgs args (orDefault "" (pattern args)) searchPaths /\
    eventsSince w (snd (handleRipgrepSearch env args w)) =
      (eventsSince w (snd (ensureRoots env w))
       ++ map Accessed searchPaths ++ [Spawned "rg" argv])%list /\
    handleRipgrepSearch env args w =
      runSearch env (orDefault "" (pattern args)) searchPaths argv
        (accessedWorld (snd (ensureRoots env w)) searchPaths).
Proof.
  destruct (Js.truthy_opt (pattern args)) eqn:Hpat.
  2:{ rewrite (handleRipgrepSearch_no_pattern args w Hpat). cbn [snd].
      rewrite (eventsSince_app w w []) by (now rewrite app_nil_r). intros []. }
  rewrite (handleRipgrepSearch_eq args w Hpat).
  destruct (ensureRoots_events env w) as (pre & Hpre & Hnospawn & _).
  rewrite (eventsSince_app w _ pre Hpre).
  destruct (fst (determineSearchPaths _ _)) as [searchPaths|e].
  2:{ cbn [snd]. rewrite (eventsSince_app w _ pre Hpre).
      intros Hin. exfalso. exact (Hnospawn _ _ Hin). }
  destruct (firstRejected _ searchPaths) as [p|] eqn:Hrej.
  - cbn [snd].
    rewrite (eventsSince_app w _ (pre ++ map Accessed (reachedPaths
               (passesValidation env (availableRoots (snd (ensureRoots env w))))
               searchPaths))%list).
    2:{ cbn [trace accessedWorld]. rewrite Hpre, <- app_assoc. reflexivity. }
    intros Hin. exfalso. apply in_app_or in Hin as [Hin|Hin]; [exact (Hnospawn _ _ Hin)|].
    apply in_map_iff in Hin as (q & Hq & _). discriminate.
  - apply firstRejected_none in Hrej as [_ Hall].
    rewrite runSearch_eq. cbn [snd].
    rewrite (eventsSince_app w _ (pre ++ map Accessed searchPaths
                                  ++ [Spawned "rg" (buildRipgrepArgs args
                                        (orDefault "" (pattern args)) searchPaths)])%list).
    2:{ cbn [trace accessedWorld]. rewrite Hpre, <- !app_assoc. reflexivity. }
    intros Hin. apply in_app_or in Hin as [Hin|Hin]; [exfalso; exact (Hnospawn _ _ Hin)|].
    apply in_app_or in Hin as [Hin|Hin].
    + apply in_map_iff in Hin as (p & Hp & _). discriminate.
    + destruct Hin as [Heq|[]]. injection Heq as <- <-.
      exists searchPaths. repeat split; try reflexivity; [exact Hall|].
      symmetry. apply runSearch_eq.
Qed.

End HandlerRuns.

Section SearchClaims.

Context {number : Type} (env : Env number).

Lemma passesValidation_true (roots : list Root) (p : string) :
  passesValidation env roots p = true ->
  access env p = None /\
  (roots = [] \/ isWithinRoots (cwd env) roots p = true).
Proof.
  unfold passesValidation. destruct (access env p); [discriminate|].
  destruct roots as [|r roots]; cbn [List.length Nat.ltb Nat.leb].
  - intros _. split; [reflexivity | left; reflexivity].
  - intros H. split; [reflexivity | right; exact H].
Qed.

Lemma truthy_opt_some (o : option string) :
  Js.truthy_opt o = true -> exists s, o = Some s /\ s <> "".
Proof.
  destruct o as [s|]; [|discriminate]. cbn. unfold Js.truthy.
  intros H. exists s. split; [reflexivity|].
  intros ->. discriminate.
Qed.

Lemma truthy_opt_of_some (s : string) : s <> "" -> Js.truthy_opt (Some s) = true.
Proof.
  intros Hs. cbn. unfold Js.truthy.
  destruct (String.eqb_spec s ""); [contradiction | reflexivity].
Qed.

(** The pushes of [pushFlags], read as one concatenation. *)
Lemma pushFlags_eq (args : SearchArgs) (base : list string) :
  pushFlags args base =
  (base
   ++ (if orDefault false (case_sensitive args) then [] else ["--ignore-case"])
   ++ (if (orDefault 0 (context_lines args) >? 0)%Z
       then [("--context=" ++ Js.ofNumber (orDefault 0%Z (context_lines args)))%string]
       else [])
   ++ (if (orDefault 1000 (max_results args) >? 0)%Z
       then [("--max-results="
              ++ Js.ofNumber (orDefault 1000%Z (max_results args)))%string]
       else [])
   ++ (if (orDefault 100 (max_matched_files args) >? 0)%Z
       then [("--max-matched-files="
              ++ Js.ofNumber (orDefault 100%Z (max_matched_files args)))%string]
       else []))%list.
Proof.
  unfold pushFlags, push.
  destruct (orDefault false (case_sensitive args));
    destruct (orDefault 0 (context_lines args) >? 0)%Z;
    destruct (orDefault 1000 (max_results args) >? 0)%Z;
    destruct (orDefault 100 (max_matched_files args) >? 0)%Z;
    cbn [negb]; rewrite <- ?app_assoc, ?app_nil_r; reflexivity.
Qed.

(** C3: every path in an argument vector given to the engine was checked
    with [access] before the spawn and exists, and either the registry was
    empty when the path was validated or the path passed [isWithinRoots]
    against it; so a path that fails the boundary check reaches the engine
    only when the registry is empty. *)
Theorem engine_paths_exist_and_are_within_roots
  (args : SearchArgs) (w : World) (cmd : string) (argv : list string) :
  In (Spawned cmd argv) (eventsSince w (snd (handleRipgrepSearch env args w))) ->
  exists pat searchPaths,
    argv = (pushFlags args defaultRipgrepArgs ++ pat :: searchPaths)%list /\
    fst (determineSearchPaths args (snd (ensureRoots env w))) = Normal searchPaths /\
    availableRoots (snd (handleRipgrepSearch env args w)) =
      availableRoots (snd (ensureRoots env w)) /\
    forall p, In p searchPaths ->
      accessedBeforeSpawn p argv
        (eventsSince w (snd (handleRipgrepSearch env args w))) /\
      access env p = None /\
      (availableRoots (snd (ensureRoots env w)) = [] \/
       isWithinRoots (cwd env) (availableRoots (snd (ensureRoots env w))) p = true) /\
      (isWithinRoots (cwd env) (availableRoots (snd (ensureRoots env w))) p = false ->
       availableRoots (snd (ensureRoots env w)) = []).
Proof.
  intros Hin.
  destruct (handleRipgrepSearch_spawn env args w cmd argv Hin)
    as (searchPaths & Hpat & Hscope & Hall & -> & Hargv & Hevents & _).
  exists (orDefault "" (pattern args)), searchPaths.
  split. { rewrite Hargv. unfold buildRipgrepArgs, pushAll, push.
           rewrite <- app_assoc. reflexivity. }
  split; [exact Hscope|].
  split; [apply (handleRipgrepSearch_roots env args w Hpat)|].
  intros p Hp.
  rewrite Forall_forall in Hall.
  destruct (passesValidation_true _ _ (Hall p Hp)) as [Hacc Hroots].
  split; [|split; [exact Hacc | split; [exact Hroots|]]].
  - rewrite Hevents. destruct (in_split _ _ Hp) as (l1 & l2 & ->).
    exists (eventsSince w (snd (ensureRoots env w)) ++ map Accessed l1)%list,
           (map Accessed l2 ++ [Spawned "rg" argv])%list.
    split.
    + rewrite map_app. cbn [map]. rewrite <- !app_assoc. reflexivity.
    + apply in_or_app. right. left. reflexivity.
  - intros Hout. destruct Hroots as [Hempty|Hin']; [exact Hempty | congruence].
Qed.

(** C9: for a request whose numeric options are safe integers, the
    argument vector given to the engine is, in this order, the base flags
    [--json --no-heading], [--ignore-case] iff [case_sensitive] is false,
    [--context=N] iff [context_lines > 0], [--max-results=N] iff
    [max_results > 0], [--max-matched-files=N] iff [max_matched_files > 0]
    (each [N] in decimal digits), the pattern as it came, and the search
    paths in the order the scope resolution gave them. *)
Theorem argument_vector_order
  (args : SearchArgs) (w : World) (cmd : string) (argv : list string) :
  numericOptionsAreSafe args = true ->
  In (Spawned cmd argv) (eventsSince w (snd (handleRipgrepSearch env args w))) ->
  exists pat searchPaths,
    pattern args = Some pat /\
    fst (determineSearchPaths args (snd (ensureRoots env w))) = Normal searchPaths /\
    cmd = "rg" /\
    argv =
      (["--json"; "--no-heading"]
       ++ (if orDefault false (case_sensitive args) then [] else ["--ignore-case"])
       ++ (if (orDefault 0 (context_lines args) >? 0)%Z
           then [("--context="
                  ++ Js.ofNumber (orDefault 0%Z (context_lines args)))%string]
           else [])
       ++ (if (orDefault 1000 (max_results args) >? 0)%Z
           then [("--max-results="
                  ++ Js.ofNumber (orDefault 1000%Z (max_results args)))%string]
           else [])
       ++ (if (orDefault 100 (max_matched_files args) >? 0)%Z
           then [("--max-matched-files="
                  ++ Js.ofNumber (orDefault 100%Z (max_matched_files args)))%string]
           else [])
       ++ [pat]
       ++ searchPaths)%list.
Proof.
  intros _ Hin.
  destruct (handleRipgrepSearch_spawn env args w cmd argv Hin)
    as (searchPaths & Hpat & Hscope & _ & -> & Hargv & _).
  destruct (truthy_opt_some _ Hpat) as (pat & Hsome & _).
  exists pat, searchPaths.
  repeat split; try assumption.
  rewrite Hargv, Hsome. cbn [orDefault].
  unfold buildRipgrepArgs, pushAll, push. rewrite pushFlags_eq.
  unfold defaultRipgrepArgs. rewrite <- !app_assoc. reflexivity.
Qed.

End SearchClaims.

Lemma engine_paths_exist_and_are_within_roots_witness :
  exists pat searchPaths,
    todoArgv "/root" = (pushFlags (request "TODO" (Some "/root") None) defaultRipgrepArgs
                        ++ pat :: searchPaths)%list /\
    fst (determineSearchPaths (request "TODO" (Some "/root") None)
           (snd (ensureRoots onlineEnv freshWorld))) = Normal searchPaths /\
    availableRoots (snd (handleRipgrepSearch onlineEnv
                           (request "TODO" (Some "/root") None) freshWorld)) =
      availableRoots (snd (ensureRoots onlineEnv freshWorld)) /\
    forall p, In p searchPaths ->
      accessedBeforeSpawn p (todoArgv "/root")
        (eventsSince freshWorld
           (snd (handleRipgrepSearch onlineEnv
                   (request "TODO" (Some "/root") None) freshWorld))) /\
      access onlineEnv p = None /\
      (availableRoots (snd (ensureRoots onlineEnv freshWorld)) = [] \/
       isWithinRoots (cwd onlineEnv)
         (availableRoots (snd (ensureRoots onlineEnv freshWorld))) p = true) /\
      (isWithinRoots (cwd onlineEnv)
         (availableRoots (snd (ensureRoots onlineEnv freshWorld))) p = false ->
       availableRoots (snd (ensureRoots onlineEnv freshWorld)) = []).
Proof.
  apply (engine_paths_exist_and_are_within_roots onlineEnv
           (request "TODO" (Some "/root") None) freshWorld "rg" (todoArgv "/root")).
  vm_compute. right. right. left. reflexivity.
Defined.

Lemma argument_vector_order_witness :
  exists pat searchPaths,
    pattern (request "TODO" (Some "/root") None) = Some pat /\
    fst (determineSearchPaths (request "TODO" (Some "/root") None)
           (snd (ensureRoots onlineEnv freshWorld))) = Normal searchPaths /\
    "rg" = "rg" /\
    todoArgv "/root" =
      (["--json"; "--no-heading"] ++ ["--ignore-case"] ++ []
       ++ ["--max-results=1000"] ++ ["--max-matched-files=100"]
       ++ [pat] ++ searchPaths)%list.
Proof.
  apply (argument_vector_order onlineEnv
           (request "TODO" (Some "/root") None) freshWorld "rg" (todoArgv "/root")).
  - vm_compute. reflexivity.
  - vm_compute. right. right. left. reflexivity.
Defined.

Section ScopeClaims.

Context {number : Type} (env : Env number).

Lemma determineSearchPaths_path (args : SearchArgs) (p : string) (w : World) :
  path args = Some p -> p <> "" ->
  determineSearchPaths args w = (Normal [p], w).
Proof.
  intros Hpath Hp. unfold determineSearchPaths, bind, getRoots.
  rewrite Hpath, (truthy_opt_of_some p Hp). reflexivity.
Qed.

Lemma find_nameIs_none (root_name : string) (roots : list Root) :
  (forall r, In r roots -> name r <> Some root_name) ->
  find (nameIs root_name) roots = None.
Proof.
  intros Hnone. destruct (find (nameIs root_name) roots) as [r|] eqn:Hfind; [|reflexivity].
  apply find_some in Hfind as [Hin Hname]. exfalso. apply (Hnone r Hin).
  unfold nameIs in Hname. destruct (name r) as [n|]; [|discriminate].
  apply String.eqb_eq in Hname. now subst.
Qed.

Lemma determineSearchPaths_unknown_name (args : SearchArgs) (rn : string) (w : World) :
  Js.truthy_opt (path args) = false ->
  root_name args = Some rn -> rn <> "" ->
  (forall r, In r (availableRoots w) -> name r <> Some rn) ->
  determineSearchPaths args w =
  (Throw (Error ("Root '" ++ rn ++ "' not found. Available roots: "
                 ++ Js.join (map (fun r => elementToString (name r)) (availableRoots w))
                      ", ")),
   w).
Proof.
  intros Hpath Hrn Hne Hnone. unfold determineSearchPaths, bind, getRoots.
  rewrite Hpath, Hrn, (truthy_opt_of_some rn Hne). cbn [orDefault].
  rewrite (find_nameIs_none rn _ Hnone). reflexivity.
Qed.

(** C5: when the request has an explicit path (a non-empty string), the
    search paths are exactly that path, whatever [root_name] is: the
    registry is not asked for the name, and the whole run is the same for
    every [root_name], so an unknown name cannot make it fail. *)
Theorem explicit_path_wins_over_root_name
  (args : SearchArgs) (p : string) (w : World) :
  path args = Some p -> p <> "" ->
  determineSearchPaths args w = (Normal [p], w) /\
  forall rn, handleRipgrepSearch env (withRootName args rn) w =
             handleRipgrepSearch env args w.
Proof.
  intros Hpath Hp. split; [apply determineSearchPaths_path; assumption|].
  intros rn.
  destruct (Js.truthy_opt (pattern args)) eqn:Hpat.
  - rewrite (handleRipgrepSearch_eq env (withRootName args rn) w Hpat),
            (handleRipgrepSearch_eq env args w Hpat).
    rewrite (determineSearchPaths_path (withRootName args rn) p _ Hpath Hp),
            (determineSearchPaths_path args p _ Hpath Hp).
    reflexivity.
  - rewrite (handleRipgrepSearch_no_pattern env (withRootName args rn) w Hpat),
            (handleRipgrepSearch_no_pattern env args w Hpat).
    reflexivity.
Qed.

(** C6: a request with a pattern, no explicit path and a [root_name] that
    no root of the registry (as it is after the refresh of an empty
    registry) bears fails with the error [Root '<name>' not found.
    Available roots: <names>], which carries the requested name and the
    names of all roots of the registry, joined by [", "]. *)
Theorem unknown_root_name_fails_with_known_names
  (args : SearchArgs) (rn : string) (w : World) :
  Js.truthy_opt (pattern args) = true ->
  Js.truthy_opt (path args) = false ->
  root_name args = Some rn -> rn <> "" ->
  (forall r, In r (availableRoots (snd (ensureRoots env w))) -> name r <> Some rn) ->
  fst (handleRipgrepSearch env args w) =
  Throw (Error ("Root '" ++ rn ++ "' not found. Available roots: "
                ++ Js.join (map (fun r => elementToString (name r))
                              (availableRoots (snd (ensureRoots env w)))) ", ")).
Proof.
  intros Hpat Hpath Hrn Hne Hnone.
  rewrite (handleRipgrepSearch_eq env args w Hpat).
  rewrite (determineSearchPaths_unknown_name args rn _ Hpath Hrn Hne Hnone).
  reflexivity.
Qed.

End ScopeClaims.

Lemma explicit_path_wins_over_root_name_witness :
  determineSearchPaths (request "TODO" (Some "/root") (Some "docs")) rootedWorld =
    (Normal ["/root"], rootedWorld) /\
  handleRipgrepSearch offlineEnv (request "TODO" (Some "/root") None) rootedWorld =
  handleRipgrepSearch offlineEnv (request "TODO" (Some "/root") (Some "docs")) rootedWorld.
Proof.
  destruct (explicit_path_wins_over_root_name offlineEnv
              (request "TODO" (Some "/root") (Some "docs")) "/root" rootedWorld eq_refl)
    as [Hscope Hsame]; [discriminate|].
  split; [exact Hscope | exact (Hsame None)].
Defined.

Lemma unknown_root_name_fails_with_known_names_witness :
  fst (handleRipgrepSearch onlineEnv (request "TODO" None (Some "docs")) freshWorld) =
  Throw (Error "Root 'docs' not found. Available roots: project").
Proof.
  apply (unknown_root_name_fails_with_known_names onlineEnv
           (request "TODO" None (Some "docs")) "docs" freshWorld);
    try reflexivity; try discriminate.
  intros r [<-|[]]. discriminate.
Defined.

Section RequestBoundary.

Context {number : Type} (env : Env number).

(** After [ensureRoots] the handler asks the client nothing more. *)
Lemma handleRipgrepSearch_events (args : SearchArgs) (w : World) :
  Js.truthy_opt (pattern args) = true ->
  exists later,
    eventsSince w (snd (handleRipgrepSearch env args w)) =
      (eventsSince w (snd (ensureRoots env w)) ++ later)%list /\
    ~ In ListRootsRequested later.
Proof.
  intros Hpat. rewrite (handleRipgrepSearch_eq env args w Hpat).
  destruct (ensureRoots_events env w) as (pre & Hpre & _).
  rewrite (eventsSince_app w _ pre Hpre).
  destruct (fst (determineSearchPaths _ _)) as [searchPaths|e].
  2:{ exists []. cbn [snd]. rewrite (eventsSince_app w _ pre Hpre), app_nil_r.
      split; [reflexivity | intros []]. }
  destruct (firstRejected _ searchPaths) as [p|].
  - eexists. cbn [snd]. split.
    + apply eventsSince_app. cbn [trace accessedWorld]. rewrite Hpre, <- app_assoc.
      reflexivity.
    + intros Hin. apply in_map_iff in Hin as (q & Hq & _). discriminate.
  - rewrite runSearch_eq. eexists. cbn [snd]. split.
    + apply eventsSince_app. cbn [trace accessedWorld]. rewrite Hpre, <- !app_assoc.
      reflexivity.
    + intros Hin. apply in_app_or in Hin as [Hin|[Hin|[]]]; [|discriminate].
      apply in_map_iff in Hin as (q & Hq & _). discriminate.
Qed.

(** With an empty registry [ensureRoots] is one refresh. *)
Lemma ensureRoots_empty (w : World) :
  availableRoots w = [] ->
  snd (ensureRoots env w) = snd (requestRootsFromClient env w) /\
  exists logged,
    eventsSince w (snd (ensureRoots env w)) = ListRootsRequested :: logged /\
    ~ In ListRootsRequested logged.
Proof.
  intros Hempty. rewrite ensureRoots_eq, Hempty. cbn [List.length Nat.eqb snd].
  split; [reflexivity|].
  rewrite requestRootsFromClient_eq.
  destruct (listRoots env (asked w)) as [roots|error]; cbn [snd].
  - exists []. split; [now apply eventsSince_app | intros []].
  - eexists. split.
    + apply eventsSince_app. cbn [trace]. rewrite <- app_assoc. reflexivity.
    + intros [H|[]]. discriminate.
Qed.

(** C10: a request with a pattern that arrives while the registry is empty
    starts with exactly one [roots/list] request, before the search paths
    are determined and also when an explicit path is given; the registry
    the request then works with is the one that refresh left. When the
    client answers with a non-empty list of roots, an explicit path is
    validated against these roots: a path that exists but is outside them
    makes the request fail and spawns nothing. *)
Theorem empty_registry_refreshes_before_scope (args : SearchArgs) (w : World) :
  availableRoots w = [] ->
  Js.truthy_opt (pattern args) = true ->
  (exists later,
      eventsSince w (snd (handleRipgrepSearch env args w)) = ListRootsRequested :: later /\
      ~ In ListRootsRequested later) /\
  availableRoots (snd (handleRipgrepSearch env args w)) =
    availableRoots (snd (requestRootsFromClient env w)) /\
  forall roots p,
    listRoots env (asked w) = RootsResponse (Some roots) -> roots <> [] ->
    path args = Some p -> p <> "" ->
    availableRoots (snd (handleRipgrepSearch env args w)) = roots /\
    (access env p = None ->
     isWithinRoots (cwd env) roots p = false ->
     fst (handleRipgrepSearch env args w) =
       Throw (Error ("Search path validation failed for '" ++ p ++ "': Search path '"
                     ++ p ++ "' is not within any allowed root")) /\
     forall cmd argv,
       ~ In (Spawned cmd argv) (eventsSince w (snd (handleRipgrepSearch env args w)))) /\
    (forall cmd argv,
       In (Spawned cmd argv) (eventsSince w (snd (handleRipgrepSearch env args w))) ->
       access env p = None /\ isWithinRoots (cwd env) roots p = true).
Proof.
  intros Hempty Hpat.
  destruct (ensureRoots_empty w Hempty) as (Hw1 & logged & Hlogged & Hnone).
  destruct (handleRipgrepSearch_events args w Hpat) as (later & Hlater & Hnone').
  split; [|split].
  - exists (logged ++ later)%list. split.
    + rewrite Hlater, Hlogged. reflexivity.
    + intros Hin. apply in_app_or in Hin as [Hin|Hin]; tauto.
  - rewrite (handleRipgrepSearch_roots env args w Hpat), Hw1. reflexivity.
  - intros roots p Hreply Hroots Hpath Hp.
    assert (Hreg : availableRoots (snd (ensureRoots env w)) = roots).
    { rewrite Hw1, requestRootsFromClient_eq, Hreply. reflexivity. }
    split; [|split].
    + rewrite (handleRipgrepSearch_roots env args w Hpat). exact Hreg.
    + intros Hacc Hout.
      assert (Hrej : passesValidation env roots p = false).
      { unfold passesValidation. rewrite Hacc.
        destruct roots as [|r roots]; [contradiction|]. exact Hout. }
      split.
      * rewrite (handleRipgrepSearch_eq env args w Hpat).
        rewrite (determineSearchPaths_path args p _ Hpath Hp). cbn [fst].
        rewrite Hreg. unfold firstRejected. cbn [find]. rewrite Hrej. cbn [negb fst].
        unfold validationError. rewrite Hacc. reflexivity.
      * intros cmd argv Hin.
        destruct (handleRipgrepSearch_spawn env args w cmd argv Hin)
          as (searchPaths & _ & Hscope & Hall & _).
        rewrite (determineSearchPaths_path args p _ Hpath Hp) in Hscope.
        injection Hscope as <-. rewrite Hreg in Hall.
        apply Forall_inv in Hall. congruence.
    + intros cmd argv Hin.
      destruct (handleRipgrepSearch_spawn env args w cmd argv Hin)
        as (searchPaths & _ & Hscope & Hall & _).
      rewrite (determineSearchPaths_path args p _ Hpath Hp) in Hscope.
      injection Hscope as <-. rewrite Hreg in Hall.
      apply Forall_inv in Hall.
      destruct (passesValidation_true env roots p Hall) as [Hacc [Hnil|Hin']];
        [contradiction | split; assumption].
Qed.

End RequestBoundary.

Lemma empty_registry_refreshes_before_scope_witness :
  availableRoots (snd (handleRipgrepSearch onlineEnv
                         (request "TODO" (Some "/srv") None) freshWorld)) = [projectRoot] /\
  fst (handleRipgrepSearch onlineEnv (request "TODO" (Some "/srv") None) freshWorld) =
    Throw (Error ("Search path validation failed for '/srv': "
                  ++ "Search path '/srv' is not within any allowed root")).
Proof.
  destruct (proj2 (proj2 (empty_registry_refreshes_before_scope onlineEnv
                            (request "TODO" (Some "/srv") None) freshWorld
                            eq_refl eq_refl))
              [projectRoot] "/srv" eq_refl) as (Hroots & Hfail & _);
    try discriminate; try reflexivity.
  split; [exact Hroots|].
  exact (proj1 (Hfail eq_refl eq_refl)).
Defined.

Section ErrorBoundary.

Context {number : Type} (env : Env number).

(** C4 (amended): only the failures of the engine are caught in the search
    handler. Once the engine is spawned the handler returns: the failure
    payload [Search failed: ...] when the child could not be launched or
    closed with a code other than 0 and 1, a report otherwise. The errors
    that arise before the spawn are thrown out of the handler: a failed
    scope resolution (unknown root name, no search paths) and a failed
    path validation (path not found, path outside the roots) make the
    handler throw that error, and whatever the handler throws arose before
    any spawn. *)
Theorem engine_failures_return_earlier_failures_throw (args : SearchArgs) (w : World) :
  (forall cmd argv,
      In (Spawned cmd argv) (eventsSince w (snd (handleRipgrepSearch env args w))) ->
      match engineFailureText (rg env argv) with
      | Some text => fst (handleRipgrepSearch env args w) = Normal (FailureContent text)
      | None => exists body, fst (handleRipgrepSearch env args w) = Normal (SearchContent body)
      end) /\
  (forall e,
      Js.truthy_opt (pattern args) = true ->
      fst (determineSearchPaths args (snd (ensureRoots env w))) = Throw e ->
      fst (handleRipgrepSearch env args w) = Throw e) /\
  (forall searchPaths p,
      Js.truthy_opt (pattern args) = true ->
      fst (determineSearchPaths args (snd (ensureRoots env w))) = Normal searchPaths ->
      firstRejected (passesValidation env (availableRoots (snd (ensureRoots env w))))
        searchPaths = Some p ->
      fst (handleRipgrepSearch env args w) = Throw (validationError env p)) /\
  (forall e,
      fst (handleRipgrepSearch env args w) = Throw e ->
      forall cmd argv,
        ~ In (Spawned cmd argv) (eventsSince w (snd (handleRipgrepSearch env args w)))).
Proof.
  split; [|split; [|split]].
  - intros cmd argv Hin.
    destruct (handleRipgrepSearch_spawn env args w cmd argv Hin)
      as (searchPaths & _ & _ & _ & _ & _ & _ & Hrun).
    rewrite Hrun, runSearch_eq. cbn [fst].
    destruct (rg env argv) as [e|e|code stdout stderr]; cbn [engineFailureText orDefault];
      try reflexivity.
    destruct (exitedCleanly code); [eexists|]; reflexivity.
  - intros e Hpat Hscope.
    rewrite (handleRipgrepSearch_eq env args w Hpat), Hscope. reflexivity.
  - intros searchPaths p Hpat Hscope Hrej.
    rewrite (handleRipgrepSearch_eq env args w Hpat), Hscope, Hrej. reflexivity.
  - intros e Hthrow cmd argv Hin.
    destruct (handleRipgrepSearch_spawn env args w cmd argv Hin)
      as (searchPaths & _ & _ & _ & _ & _ & _ & Hrun).
    rewrite Hrun, runSearch_eq in Hthrow. cbn [fst] in Hthrow.
    destruct (rg env argv) as [e'|e'|code stdout stderr]; try discriminate.
    destruct (exitedCleanly code); discriminate.
Qed.

End ErrorBoundary.

Lemma engine_failures_return_earlier_failures_throw_witness :
  fst (handleRipgrepSearch brokenEngineEnv (request "(" (Some "/root") None) freshWorld) =
    Normal (FailureContent "Search failed: Ripgrep failed with code 2: regex parse error") /\
  fst (handleRipgrepSearch offlineEnv (request "TODO" None None) freshWorld) =
    Throw (Error ("No search paths available. The client has not provided any roots. "
                  ++ "Use refresh_roots tool or provide a specific path.")) /\
  fst (handleRipgrepSearch onlineEnv (request "TODO" (Some "/etc") None) freshWorld) =
    Throw (validationError onlineEnv "/etc").
Proof.
  split; [|split].
  - apply (proj1 (engine_failures_return_earlier_failures_throw brokenEngineEnv
                    (request "(" (Some "/root") None) freshWorld)
             "rg" (pushFlags (request "(" (Some "/root") None) defaultRipgrepArgs
                   ++ ["("; "/root"])%list).
    vm_compute. right. right. right. left. reflexivity.
  - apply (proj1 (proj2 (engine_failures_return_earlier_failures_throw offlineEnv
                           (request "TODO" None None) freshWorld)));
      reflexivity.
  - apply (proj1 (proj2 (proj2 (engine_failures_return_earlier_failures_throw onlineEnv
                                  (request "TODO" (Some "/etc") None) freshWorld)))
             ["/etc"] "/etc");
      reflexivity.
Defined.

(** C4, as stated, fails: each of these requests ends in an error thrown
    out of the handler, not in a failure payload. *)
Lemma scope_and_validation_errors_escape_the_handler :
  fst (handleRipgrepSearch onlineEnv (request "TODO" None (Some "docs")) freshWorld) =
    Throw (Error "Root 'docs' not found. Available roots: project") /\
  fst (handleRipgrepSearch offlineEnv (request "TODO" None None) freshWorld) =
    Throw (Error ("No search paths available. The client has not provided any roots. "
                  ++ "Use refresh_roots tool or provide a specific path.")) /\
  fst (handleRipgrepSearch onlineEnv (request "TODO" (Some "/etc") None) freshWorld) =
    Throw (Error ("Search path validation failed for '/etc': "
                  ++ "ENOENT: no such file or directory, access '/etc'")) /\
  fst (handleRipgrepSearch onlineEnv (request "TODO" (Some "/srv") None) freshWorld) =
    Throw (Error ("Search path validation failed for '/srv': "
                  ++ "Search path '/srv' is not within any allowed root")) /\
  forall payload : @ToolResult Z,
    fst (handleRipgrepSearch onlineEnv (request "TODO" None (Some "docs")) freshWorld)
    <> Normal payload.
Proof.
  split; [vm_compute; reflexivity|].
  split; [vm_compute; reflexivity|].
  split; [vm_compute; reflexivity|].
  split; [vm_compute; reflexivity|].
  intros payload. vm_compute. discriminate.
Qed.

Section BoundaryCheck.

Lemma split_slashFree (s : string) : forallb slashFree (Js.split s "/") = true.
Proof.
  induction s as [|c s IH]; [reflexivity|].
  cbn [Js.split]. destruct (Ascii.eqb c "/") eqn:Hc.
  - cbn [forallb slashFree]. exact IH.
  - destruct (Js.split s "/") as [|h t]; cbn [forallb slashFree] in *; rewrite Hc.
    + reflexivity.
    + exact IH.
Qed.

Lemma split_one_segment (x : string) : slashFree x = true -> Js.split x "/" = [x].
Proof.
  induction x as [|c x IH]; [reflexivity|].
  cbn [slashFree Js.split]. intros H. apply andb_true_iff in H as [Hc Hx].
  apply negb_true_iff in Hc. rewrite Hc, (IH Hx). reflexivity.
Qed.

Lemma split_segment_then (x y : string) :
  slashFree x = true -> Js.split (x ++ "/" ++ y) "/" = x :: Js.split y "/".
Proof.
  induction x as [|c x IH]; [reflexivity|].
  cbn [slashFree]. intros H. apply andb_true_iff in H as [Hc Hx].
  apply negb_true_iff in Hc.
  change (String c x ++ "/" ++ y) with (String c (x ++ "/" ++ y)).
  cbn [Js.split]. rewrite Hc, (IH Hx). reflexivity.
Qed.

Lemma split_join (xs : list string) :
  forallb isSegment xs = true -> xs <> [] -> Js.split (Js.join xs "/") "/" = xs.
Proof.
  induction xs as [|x rest IH]; [contradiction|].
  cbn [forallb]. intros H _. apply andb_true_iff in H as [Hx Hrest].
  apply andb_true_iff in Hx as [_ Hx].
  destruct rest as [|y rest].
  - apply split_one_segment. exact Hx.
  - change (Js.join (x :: y :: rest) "/") with (x ++ "/" ++ Js.join (y :: rest) "/").
    rewrite (split_segment_then _ _ Hx), IH by (assumption || discriminate).
    reflexivity.
Qed.

Lemma filter_truthy_segments (xs : list string) :
  forallb isSegment xs = true -> filter Js.truthy xs = xs.
Proof.
  induction xs as [|x rest IH]; [reflexivity|].
  cbn [forallb filter]. intros H. apply andb_true_iff in H as [Hx Hrest].
  apply andb_true_iff in Hx as [Hx _]. rewrite Hx, (IH Hrest). reflexivity.
Qed.

(** The components of an absolute resolved path are its segments. *)
Lemma components_absolute (xs : list string) :
  forallb isSegment xs = true -> Path.components ("/" ++ Js.join xs "/") = xs.
Proof.
  intros H. unfold Path.components.
  change ("/" ++ Js.join xs "/") with (String "/" (Js.join xs "/")).
  cbn [Js.split Ascii.eqb Bool.eqb filter Js.truthy String.eqb negb].
  destruct xs as [|x rest]; [reflexivity|].
  rewrite split_join by (assumption || discriminate).
  apply filter_truthy_segments. exact H.
Qed.

Lemma normalizeSegments_segments (allowAboveRoot : bool) (segs acc : list string) :
  forallb slashFree segs = true ->
  forallb isSegment acc = true ->
  forallb isSegment (Path.normalizeSegments allowAboveRoot acc segs) = true.
Proof.
  revert acc. induction segs as [|s rest IH]; intros acc Hsegs Hacc.
  - cbn [Path.normalizeSegments]. apply forallb_forall. intros x Hx.
    apply in_rev in Hx. rewrite forallb_forall in Hacc. exact (Hacc x Hx).
  - cbn [forallb] in Hsegs. apply andb_true_iff in Hsegs as [Hs Hrest].
    cbn [Path.normalizeSegments].
    destruct (String.eqb s "") eqn:Hempty; cbn [orb]; [apply IH; assumption|].
    destruct (String.eqb s "."); [apply IH; assumption|].
    destruct (String.eqb s "..").
    + destruct acc as [|last acc'].
      * apply IH; [assumption|]. destruct allowAboveRoot; reflexivity.
      * destruct (String.eqb last "..").
        -- apply IH; [assumption|]. destruct allowAboveRoot; [|assumption].
           cbn [forallb] in Hacc |- *. rewrite Hacc. reflexivity.
        -- apply IH; [assumption|]. cbn [forallb] in Hacc.
           apply andb_true_iff in Hacc as [_ Hacc]. exact Hacc.
    + apply IH; [assumption|]. cbn [forallb]. rewrite Hacc.
      unfold isSegment, Js.truthy. rewrite Hempty, Hs. reflexivity.
Qed.

(** In a process with an absolute working directory every resolved path is
    [/] followed by segments joined by [/]. *)
Lemma resolve_absolute (cwd p : string) :
  Path.isAbsolute cwd = true ->
  exists segs,
    forallb isSegment segs = true /\ Path.resolve cwd p = "/" ++ Js.join segs "/".
Proof.
  intros Hcwd. unfold Path.resolve.
  assert (Habs : exists resolvedPath,
             Path.prepend cwd (Path.prepend p ("", false)) = (resolvedPath, true)).
  { unfold Path.prepend. destruct (String.eqb p "").
    - destruct (String.eqb_spec cwd ""); [subst; discriminate|].
      rewrite Hcwd. eexists. reflexivity.
    - destruct (Path.isAbsolute p); [eexists; reflexivity|].
      destruct (String.eqb_spec cwd ""); [subst; discriminate|].
      rewrite Hcwd. eexists. reflexivity. }
  destruct Habs as (resolvedPath & ->). cbn [negb].
  eexists. split; [|reflexivity].
  apply normalizeSegments_segments; [apply split_slashFree | reflexivity].
Qed.

Lemma componentPrefix_app (xs ys : list string) :
  componentPrefix xs ys = true -> exists rest, ys = (xs ++ rest)%list.
Proof.
  revert ys. induction xs as [|x xs IH]; intros ys H.
  - exists ys. reflexivity.
  - destruct ys as [|y ys]; [discriminate|]. cbn [componentPrefix] in H.
    apply andb_true_iff in H as [Hxy H]. apply String.eqb_eq in Hxy as ->.
    destruct (IH ys H) as (rest & ->). exists rest. reflexivity.
Qed.

Lemma prefix_append (a b : string) : String.prefix a (a ++ b) = true.
Proof.
  induction a as [|c a IH]; cbn.
  - destruct b; reflexivity.
  - destruct (ascii_dec c c); [exact IH | contradiction].
Qed.

Lemma append_assoc (a b c : string) : (a ++ b) ++ c = a ++ (b ++ c).
Proof.
  induction a as [|x a IH]; cbn; [reflexivity | now rewrite IH].
Qed.

Lemma append_nil_r (a : string) : a ++ "" = a.
Proof.
  induction a as [|x a IH]; cbn; [reflexivity | now rewrite IH].
Qed.

Lemma join_app (xs rest : list string) :
  xs <> [] -> rest <> [] ->
  Js.join (xs ++ rest)%list "/" = Js.join xs "/" ++ "/" ++ Js.join rest "/".
Proof.
  intros Hxs Hrest. induction xs as [|x xs IH]; [contradiction|].
  destruct xs as [|x' xs].
  - destruct rest; [contradiction | reflexivity].
  - change (Js.join ((x :: x' :: xs) ++ rest)%list "/")
      with (x ++ "/" ++ Js.join ((x' :: xs) ++ rest)%list "/").
    rewrite IH by discriminate.
    change (Js.join (x :: x' :: xs) "/") with (x ++ "/" ++ Js.join (x' :: xs) "/").
    rewrite !append_assoc. reflexivity.
Qed.

Lemma startsWith_joined (xs rest : list string) :
  Js.startsWith ("/" ++ Js.join (xs ++ rest)%list "/") ("/" ++ Js.join xs "/") = true.
Proof.
  unfold Js.startsWith.
  destruct xs as [|x xs].
  - destruct (Js.join ([] ++ rest)%list "/"); reflexivity.
  - destruct rest as [|r rest].
    + rewrite app_nil_r. rewrite <- (append_nil_r ("/" ++ Js.join (x :: xs) "/")) at 2.
      apply prefix_append.
    + rewrite join_app by discriminate.
      rewrite <- append_assoc. apply prefix_append.
Qed.

(** The boundary check of the handler rejects no path that lies within a
    root by components. *)
Lemma within_by_components_is_accepted (cwd : string) (roots : list Root) (p : string) :
  Path.isAbsolute cwd = true ->
  isWithinRootsByComponents cwd roots p = true ->
  isWithinRoots cwd roots p = true.
Proof.
  intros Hcwd H. unfold isWithinRootsByComponents in H. unfold isWithinRoots.
  apply existsb_exists in H as (root & Hin & H). apply existsb_exists.
  exists root. split; [exact Hin|].
  unfold withinRootByComponents in H. unfold withinRoot.
  destruct (resolve_absolute cwd (rootPath root) Hcwd) as (rs & Hrs & Hroot).
  destruct (resolve_absolute cwd p Hcwd) as (ps & Hps & Hpath).
  rewrite Hroot, Hpath in H |- *.
  rewrite !components_absolute in H by assumption.
  destruct (componentPrefix_app _ _ H) as (rest & ->).
  apply startsWith_joined.
Qed.

End BoundaryCheck.

(** C1 at the failing input: with the single root [/root], the directory
    [/root-2] next to it passes the boundary check of the handler, though
    its components do not start with those of the root; the search of
    [/root-2] is validated and reaches the engine. *)
Theorem sibling_directory_passes_boundary_check :
  (forall cwd, isWithinRoots cwd [mkRoot "file:///root" None] "/root-2" = true) /\
  (forall cwd,
      isWithinRootsByComponents cwd [mkRoot "file:///root" None] "/root-2" = false) /\
  eventsSince freshWorld
    (snd (handleRipgrepSearch onlineEnv (request "TODO" (Some "/root-2") None)
            freshWorld)) =
    [ListRootsRequested; Accessed "/root-2"; Spawned "rg" (todoArgv "/root-2")].
Proof.
  split; [|split].
  - intros cwd. reflexivity.
  - intros cwd. reflexivity.
  - vm_compute. reflexivity.
Qed.

(* ===================================================================== *)
(** * Further properties of the search handler *)
(* ===================================================================== *)

Section ScopeResolution.

Context {number : Type} (env : Env number).

(** What scope resolution can throw: the two messages start with [R] and
    [N]. *)
Lemma determineSearchPaths_throws (args : SearchArgs) (w : World) (e : JsError) :
  fst (determineSearchPaths args w) = Throw e ->
  exists c rest, message e = String c rest /\ (c = "R"%char \/ c = "N"%char).
Proof.
  unfold determineSearchPaths, bind, getRoots, ret, throw.
  destruct (Js.truthy_opt (path args)); [discriminate|].
  destruct (Js.truthy_opt (root_name args)).
  - destruct (find _ (availableRoots w)); [discriminate|].
    cbn [fst]. intros [= <-]. eexists _, _. split; [reflexivity | left; reflexivity].
  - destruct (Nat.ltb 0 (List.length (availableRoots w))); [discriminate|].
    cbn [fst]. intros [= <-]. eexists _, _. split; [reflexivity | right; reflexivity].
Qed.

(** X1: a request without a pattern (absent, or the empty string) is
    refused with [Pattern is required] before anything happens: no
    refresh, no file-system access, no child process; and no other request
    ends in that error. *)
Theorem pattern_is_required (args : SearchArgs) (w : World) :
  (Js.truthy_opt (pattern args) = false ->
   handleRipgrepSearch env args w = (Throw (Error "Pattern is required"), w)) /\
  (fst (handleRipgrepSearch env args w) = Throw (Error "Pattern is required") ->
   Js.truthy_opt (pattern args) = false).
Proof.
  split; [apply handleRipgrepSearch_no_pattern|].
  destruct (Js.truthy_opt (pattern args)) eqn:Hpat; [|reflexivity].
  rewrite (handleRipgrepSearch_eq env args w Hpat).
  destruct (fst (determineSearchPaths _ _)) as [searchPaths|e] eqn:Hscope.
  - destruct (firstRejected _ searchPaths) as [p|].
    + cbn [fst]. unfold validationError. intros [=].
    + rewrite runSearch_eq. cbn [fst].
      destruct (rg env _) as [e|e|code stdout stderr]; try discriminate.
      destruct (exitedCleanly code); discriminate.
  - cbn [fst]. intros [= ->].
    destruct (determineSearchPaths_throws _ _ _ Hscope) as (c & rest & Hmsg & [->| ->]);
      discriminate.
Qed.

Lemma find_nameIs_first (rn : string) (before after : list Root) (r : Root) :
  name r = Some rn ->
  (forall b, In b before -> name b <> Some rn) ->
  find (nameIs rn) (before ++ r :: after) = Some r.
Proof.
  intros Hr Hbefore. induction before as [|b before IH]; cbn [app find].
  - unfold nameIs. rewrite Hr, String.eqb_refl. reflexivity.
  - assert (Hb : nameIs rn b = false).
    { unfold nameIs. destruct (name b) as [n|] eqn:Hn; [|reflexivity].
      destruct (String.eqb_spec n rn); [|reflexivity].
      subst. exfalso. apply (Hbefore b); [left; reflexivity | exact Hn]. }
    rewrite Hb. apply IH. intros b' Hin. apply Hbefore. right. exact Hin.
Qed.

(** X2: without an explicit path, a root name selects the first root of
    the registry that bears exactly this name, and the search path is the
    URI of that root with [file://] removed; roots after it with the same
    name are not searched. *)
Theorem named_root_resolves_to_first_match
  (args : SearchArgs) (rn : string) (w : World) (before after : list Root) (r : Root) :
  Js.truthy_opt (path args) = false ->
  root_name args = Some rn -> rn <> "" ->
  availableRoots w = (before ++ r :: after)%list ->
  name r = Some rn ->
  (forall b, In b before -> name b <> Some rn) ->
  determineSearchPaths args w = (Normal [Js.replace (uri r) "file://" ""], w).
Proof.
  intros Hpath Hrn Hne Hroots Hr Hbefore.
  unfold determineSearchPaths, bind, getRoots.
  rewrite Hpath, Hrn, (truthy_opt_of_some rn Hne). cbn [orDefault].
  rewrite Hroots, (find_nameIs_first rn before after r Hr Hbefore). reflexivity.
Qed.

Lemma prefix_refl (s : string) : String.prefix s s = true.
Proof.
  induction s as [|c s IH]; [reflexivity|].
  cbn. destruct (ascii_dec c c); [exact IH | contradiction].
Qed.

Lemma isWithinRoots_member (cwd : string) (roots : list Root) (r : Root) :
  In r roots -> isWithinRoots cwd roots (rootPath r) = true.
Proof.
  intros Hin. unfold isWithinRoots. apply existsb_exists.
  exists r. split; [exact Hin|]. unfold withinRoot, Js.startsWith. apply prefix_refl.
Qed.

(** For the path of a registered root the validation is the existence
    check alone. *)
Lemma passesValidation_member (roots : list Root) (r : Root) :
  In r roots ->
  passesValidation env roots (rootPath r) =
  match access env (rootPath r) with None => true | Some _ => false end.
Proof.
  intros Hin. unfold passesValidation.
  destruct (access env (rootPath r)); [reflexivity|].
  rewrite (isWithinRoots_member (cwd env) roots r Hin).
  destruct (Nat.ltb 0 (List.length roots)); reflexivity.
Qed.

Lemma determineSearchPaths_unscoped (args : SearchArgs) (w : World) :
  unscoped args = true ->
  determineSearchPaths args w =
  (if Nat.ltb 0 (List.length (availableRoots w))
   then Normal (map rootPath (availableRoots w))
   else Throw (Error ("No search paths available. The client has not provided any roots. "
                      ++ "Use refresh_roots tool or provide a specific path.")),
   w).
Proof.
  unfold unscoped. intros H. apply andb_true_iff in H as [Hp Hn].
  apply negb_true_iff in Hp. apply negb_true_iff in Hn.
  unfold determineSearchPaths, bind, getRoots. rewrite Hp, Hn.
  destruct (Nat.ltb 0 (List.length (availableRoots w))); reflexivity.
Qed.

Lemma firstRejected_members (roots : list Root) (some : list Root) :
  (forall r, In r some -> In r roots) ->
  firstRejected (passesValidation env roots) (map rootPath some) =
  firstRejected (fun p => match access env p with None => true | Some _ => false end)
    (map rootPath some).
Proof.
  unfold firstRejected. induction some as [|r some IH]; intros Hsub; [reflexivity|].
  cbn [map find]. rewrite (passesValidation_member roots r) by (apply Hsub; now left).
  destruct (access env (rootPath r)); cbn [negb]; [reflexivity|].
  apply IH. intros r' Hin. apply Hsub. now right.
Qed.

End ScopeResolution.

Section RegistryScopes.

Context {number : Type} (env : Env number).

Lemma firstRejected_all_pass (passes : string -> bool) (paths : list string) :
  Forall (fun p => passes p = true) paths -> firstRejected passes paths = None.
Proof.
  unfold firstRejected. induction 1 as [|p paths Hp _ IH]; [reflexivity|].
  cbn [find]. rewrite Hp. exact IH.
Qed.

Lemma length_positive {A} (xs : list A) : xs <> [] -> Nat.ltb 0 (List.length xs) = true.
Proof. destruct xs; [contradiction | reflexivity]. Qed.

(** X3: a request with a pattern and no scope searches every root of the
    registry, in registry order. Each root path is checked with [access]
    and none is rejected as outside the roots: when all exist the engine
    is spawned on all of them, and otherwise the request fails at the
    first root path that does not exist, with the error of [access]. *)
Theorem unscoped_request_searches_every_root
  (args : SearchArgs) (w : World) (pat : string) :
  pattern args = Some pat -> pat <> "" ->
  unscoped args = true ->
  availableRoots (snd (ensureRoots env w)) <> [] ->
  (Forall (fun r => access env (rootPath r) = None)
          (availableRoots (snd (ensureRoots env w))) ->
   eventsSince w (snd (handleRipgrepSearch env args w)) =
     (eventsSince w (snd (ensureRoots env w))
      ++ map Accessed (map rootPath (availableRoots (snd (ensureRoots env w))))
      ++ [Spawned "rg"
            (pushFlags args defaultRipgrepArgs
             ++ pat :: map rootPath (availableRoots (snd (ensureRoots env w))))])%list) /\
  (forall p err,
      firstRejected (fun p => match access env p with None => true | Some _ => false end)
        (map rootPath (availableRoots (snd (ensureRoots env w)))) = Some p ->
      access env p = Some err ->
      fst (handleRipgrepSearch env args w) =
        Throw (Error ("Search path validation failed for '" ++ p ++ "': " ++ message err))).
Proof.
  intros Hsome Hne Hunscoped Hroots.
  assert (Hpat : Js.truthy_opt (pattern args) = true)
    by (rewrite Hsome; apply truthy_opt_of_some; exact Hne).
  rewrite (handleRipgrepSearch_eq env args w Hpat).
  rewrite (determineSearchPaths_unscoped args _ Hunscoped), (length_positive _ Hroots).
  cbn [fst].
  rewrite (firstRejected_members env _ _ (fun r H => H)).
  split.
  - intros Hall.
    rewrite firstRejected_all_pass.
    2:{ apply Forall_forall. intros p Hin. apply in_map_iff in Hin as (r & <- & Hr).
        rewrite Forall_forall in Hall. rewrite (Hall r Hr). reflexivity. }
    rewrite runSearch_eq. cbn [snd].
    destruct (ensureRoots_events env w) as (pre & Hpre & _).
    rewrite (eventsSince_app w (snd (ensureRoots env w)) pre Hpre).
    apply eventsSince_app. cbn [trace accessedWorld].
    rewrite Hpre, Hsome. cbn [orDefault].
    unfold buildRipgrepArgs, pushAll, push. rewrite <- !app_assoc. reflexivity.
  - intros p err Hrej Hacc. rewrite Hrej. cbn [fst].
    unfold validationError. rewrite Hacc. reflexivity.
Qed.

(** X4: a request with a pattern and no scope, made when the registry is
    empty and the refresh leaves it empty (the client fails, or offers no
    roots), fails with [No search paths available...] after that one
    refresh; no path is checked and no child process is spawned. *)
Theorem unscoped_request_without_roots_fails (args : SearchArgs) (w : World) :
  Js.truthy_opt (pattern args) = true ->
  unscoped args = true ->
  availableRoots w = [] ->
  availableRoots (snd (requestRootsFromClient env w)) = [] ->
  fst (handleRipgrepSearch env args w) =
    Throw (Error ("No search paths available. The client has not provided any roots. "
                  ++ "Use refresh_roots tool or provide a specific path.")) /\
  eventsSince w (snd (handleRipgrepSearch env args w)) =
    eventsSince w (snd (requestRootsFromClient env w)) /\
  (forall p, ~ In (Accessed p) (eventsSince w (snd (handleRipgrepSearch env args w)))) /\
  (forall cmd argv,
      ~ In (Spawned cmd argv) (eventsSince w (snd (handleRipgrepSearch env args w)))).
Proof.
  intros Hpat Hunscoped Hempty Hstill.
  destruct (ensureRoots_empty env w Hempty) as [Hw1 _].
  destruct (ensureRoots_events env w) as (pre & Hpre & Hnospawn & Hnoaccess).
  rewrite (handleRipgrepSearch_eq env args w Hpat).
  rewrite (determineSearchPaths_unscoped args _ Hunscoped).
  rewrite Hw1 in *. rewrite Hstill. cbn [List.length Nat.ltb Nat.leb fst snd].
  rewrite (eventsSince_app w _ pre Hpre).
  repeat split; [exact Hnoaccess | exact Hnospawn].
Qed.

(** X5: the path of a registered root always passes the boundary check
    against its registry, so validating it fails only when the path does
    not exist: when it exists, [validatePath] returns after the one
    [access] call. *)
Theorem registered_root_path_validates (w : World) (r : Root) :
  In r (availableRoots w) ->
  isWithinRoots (cwd env) (availableRoots w) (rootPath r) = true /\
  (access env (rootPath r) = None ->
   validatePath env (rootPath r) w =
     (Normal tt,
      mkWorld (availableRoots w) (asked w) (trace w ++ [Accessed (rootPath r)])%list)).
Proof.
  intros Hin. split; [apply isWithinRoots_member; exact Hin|].
  intros Hacc. rewrite validatePath_eq, (passesValidation_member env _ r Hin), Hacc.
  reflexivity.
Qed.

End RegistryScopes.

Section ValidationLoop.

Context {number : Type} (env : Env number).

Lemma firstRejected_split (passes : string -> bool) (checked rest : list string)
  (p : string) :
  Forall (fun q => passes q = true) checked -> passes p = false ->
  firstRejected passes (checked ++ p :: rest) = Some p /\
  reachedPaths passes (checked ++ p :: rest) = (checked ++ [p])%list.
Proof.
  intros Hchecked Hp. unfold firstRejected.
  induction Hchecked as [|q checked Hq _ IH]; cbn [app find reachedPaths].
  - rewrite Hp. split; reflexivity.
  - rewrite Hq. cbn [negb]. destruct IH as [-> ->]. split; reflexivity.
Qed.

(** X6: the validation loop stops at the first path that fails: the paths
    before it are each checked with [access], the failing path is checked,
    the loop throws the validation error of that path, and the paths after
    it are never touched. The registry is left as it was. *)
Theorem validation_stops_at_first_failure
  (checked rest : list string) (p : string) (w : World) :
  Forall (fun q => access env q = None /\
                   (availableRoots w = [] \/
                    isWithinRoots (cwd env) (availableRoots w) q = true)) checked ->
  (access env p <> None \/
   (availableRoots w <> [] /\ isWithinRoots (cwd env) (availableRoots w) p = false)) ->
  fst (validatePaths env (checked ++ p :: rest) w) =
    Throw (Error ("Search path validation failed for '" ++ p ++ "': "
                  ++ match access env p with
                     | Some error => message error
                     | None => "Search path '" ++ p ++ "' is not within any allowed root"
                     end)) /\
  trace (snd (validatePaths env (checked ++ p :: rest) w)) =
    (trace w ++ map Accessed checked ++ [Accessed p])%list /\
  availableRoots (snd (validatePaths env (checked ++ p :: rest) w)) = availableRoots w.
Proof.
  intros Hchecked Hp.
  assert (Hpass : Forall (fun q => passesValidation env (availableRoots w) q = true) checked).
  { eapply Forall_impl; [|exact Hchecked]. cbv beta. intros q [Hacc Hin].
    unfold passesValidation. rewrite Hacc.
    destruct (availableRoots w) as [|r roots] eqn:Hroots; [reflexivity|].
    destruct Hin as [Hnil|Hin]; [discriminate | exact Hin]. }
  assert (Hfail : passesValidation env (availableRoots w) p = false).
  { unfold passesValidation. destruct (access env p) as [err|]; [reflexivity|].
    destruct Hp as [Hp|[Hne Hout]]; [contradiction|].
    rewrite (length_positive _ Hne). exact Hout. }
  rewrite validatePaths_eq.
  destruct (firstRejected_split _ checked rest p Hpass Hfail) as [-> ->].
  cbn [fst snd accessedWorld trace availableRoots].
  rewrite map_app. repeat split.
Qed.

(** X7: the outcome of validating one path. A path that does not exist
    fails with the error of [access], whatever the registry holds; a path
    that exists passes unchecked when the registry is empty; with a
    non-empty registry it passes exactly when [isWithinRoots] holds. In
    each case [access] is called once and the registry is untouched. *)
Theorem validatePath_outcomes (p : string) (w : World) :
  (forall err,
      access env p = Some err ->
      fst (validatePath env p w) =
        Throw (Error ("Search path validation failed for '" ++ p ++ "': " ++ message err))) /\
  (access env p = None -> availableRoots w = [] ->
   fst (validatePath env p w) = Normal tt) /\
  (access env p = None -> availableRoots w <> [] ->
   fst (validatePath env p w) =
     if isWithinRoots (cwd env) (availableRoots w) p then Normal tt
     else Throw (Error ("Search path validation failed for '" ++ p ++ "': Search path '"
                        ++ p ++ "' is not within any allowed root"))) /\
  snd (validatePath env p w) =
    mkWorld (availableRoots w) (asked w) (trace w ++ [Accessed p])%list.
Proof.
  rewrite validatePath_eq. unfold passesValidation, validationError. cbn [fst snd].
  split; [|split; [|split]].
  - intros err ->. reflexivity.
  - intros -> ->. reflexivity.
  - intros -> Hne. rewrite (length_positive _ Hne).
    destruct (isWithinRoots _ _ p); reflexivity.
  - reflexivity.
Qed.

End ValidationLoop.

Section HandlerInvariants.

Context {number : Type} (env : Env number).

Lemma ensureRoots_non_empty (w : World) :
  availableRoots w <> [] -> snd (ensureRoots env w) = w.
Proof.
  intros Hne. rewrite ensureRoots_eq.
  destruct (availableRoots w); [contradiction | reflexivity].
Qed.

(** X8: a search never refreshes a registry that holds roots: it sends no
    [roots/list] request and leaves the registry exactly as it found it,
    so roots that the client has changed meanwhile stay in force until a
    refresh or a notification. *)
Theorem search_keeps_non_empty_registry (args : SearchArgs) (w : World) :
  availableRoots w <> [] ->
  ~ In ListRootsRequested (eventsSince w (snd (handleRipgrepSearch env args w))) /\
  availableRoots (snd (handleRipgrepSearch env args w)) = availableRoots w /\
  asked (snd (handleRipgrepSearch env args w)) = asked w.
Proof.
  intros Hne.
  destruct (Js.truthy_opt (pattern args)) eqn:Hpat.
  2:{ rewrite (handleRipgrepSearch_no_pattern env args w Hpat). cbn [snd].
      rewrite (eventsSince_app w w []) by (now rewrite app_nil_r).
      split; [intros [] | split; reflexivity]. }
  destruct (handleRipgrepSearch_events env args w Hpat) as (later & Hlater & Hnone).
  rewrite Hlater, (handleRipgrepSearch_roots env args w Hpat).
  rewrite (handleRipgrepSearch_eq env args w Hpat).
  rewrite (ensureRoots_non_empty w Hne).
  rewrite (eventsSince_app w w []) by (now rewrite app_nil_r).
  split; [exact Hnone|]. split; [reflexivity|].
  destruct (fst (determineSearchPaths args w)) as [searchPaths|e]; [|reflexivity].
  destruct (firstRejected _ searchPaths); [reflexivity|].
  rewrite runSearch_eq. reflexivity.
Qed.

Lemma spawnCount_app (xs ys : list Event) :
  spawnCount (xs ++ ys) = spawnCount xs + spawnCount ys.
Proof. unfold spawnCount. rewrite filter_app, length_app. reflexivity. Qed.

Lemma spawnCount_none (xs : list Event) :
  (forall cmd argv, ~ In (Spawned cmd argv) xs) -> spawnCount xs = 0.
Proof.
  unfold spawnCount. induction xs as [|e xs IH]; intros Hnone; [reflexivity|].
  cbn [filter]. destruct e; cbn [isSpawn];
    try (apply IH; intros cmd argv Hin; apply (Hnone cmd argv); right; exact Hin).
  exfalso. apply (Hnone command argv). left. reflexivity.
Qed.

Lemma spawnCount_accessed (paths : list string) : spawnCount (map Accessed paths) = 0.
Proof.
  apply spawnCount_none. intros cmd argv Hin.
  apply in_map_iff in Hin as (p & Hp & _). discriminate.
Qed.

(** X9: a search spawns at most one child process, always the command
    [rg], and it returns a result exactly when it spawned one: a request
    that throws has spawned nothing, and a request that returns has
    spawned once. *)
Theorem search_returns_iff_it_spawned_once (args : SearchArgs) (w : World) :
  spawnCount (eventsSince w (snd (handleRipgrepSearch env args w))) <= 1 /\
  ((exists result, fst (handleRipgrepSearch env args w) = Normal result) <->
   spawnCount (eventsSince w (snd (handleRipgrepSearch env args w))) = 1) /\
  (forall cmd argv,
      In (Spawned cmd argv) (eventsSince w (snd (handleRipgrepSearch env args w))) ->
      cmd = "rg").
Proof.
  assert (Hcases :
    (exists result, fst (handleRipgrepSearch env args w) = Normal result) /\
    spawnCount (eventsSince w (snd (handleRipgrepSearch env args w))) = 1 \/
    (exists e, fst (handleRipgrepSearch env args w) = Throw e) /\
    spawnCount (eventsSince w (snd (handleRipgrepSearch env args w))) = 0).
  { destruct (Js.truthy_opt (pattern args)) eqn:Hpat.
    2:{ right. rewrite (handleRipgrepSearch_no_pattern env args w Hpat). cbn [fst snd].
        rewrite (eventsSince_app w w []) by (now rewrite app_nil_r).
        split; [eexists; reflexivity | reflexivity]. }
    rewrite (handleRipgrepSearch_eq env args w Hpat).
    destruct (ensureRoots_events env w) as (pre & Hpre & Hnospawn & _).
    destruct (fst (determineSearchPaths _ _)) as [searchPaths|e].
    2:{ right. cbn [fst snd]. rewrite (eventsSince_app w _ pre Hpre).
        split; [eexists; reflexivity | apply spawnCount_none; exact Hnospawn]. }
    destruct (firstRejected _ searchPaths) as [p|].
    - right. cbn [fst snd]. split; [eexists; reflexivity|].
      erewrite eventsSince_app.
      2:{ cbn [trace accessedWorld]. rewrite Hpre, <- app_assoc. reflexivity. }
      rewrite spawnCount_app, spawnCount_accessed, (spawnCount_none pre Hnospawn).
      reflexivity.
    - left. rewrite runSearch_eq. cbn [fst snd]. split.
      + destruct (rg env _) as [e|e|code stdout stderr]; try (eexists; reflexivity).
        destruct (exitedCleanly code); eexists; reflexivity.
      + erewrite eventsSince_app.
        2:{ cbn [trace accessedWorld]. rewrite Hpre, <- !app_assoc. reflexivity. }
        rewrite !spawnCount_app, spawnCount_accessed, (spawnCount_none pre Hnospawn).
        reflexivity. }
  split; [|split].
  - destruct Hcases as [[_ ->]|[_ ->]]; auto.
  - split.
    + intros [result Hres]. destruct Hcases as [[_ H]|[[e He] _]]; [exact H|congruence].
    + intros Hone. destruct Hcases as [[H _]|[_ H]]; [exact H | congruence].
  - intros cmd argv Hin.
    destruct (handleRipgrepSearch_spawn env args w cmd argv Hin)
      as (searchPaths & _ & _ & _ & Hcmd & _).
    exact Hcmd.
Qed.

End HandlerInvariants.

Section Reports.

Context {number : Type} (env : Env number).

Lemma matchRecords_are_matches (stdout : string) :
  Forall (fun v => isMatchRecord v = true) (matchRecords env stdout).
Proof.
  unfold matchRecords. apply Forall_forall. intros v Hin.
  apply filter_In in Hin. tauto.
Qed.

(** X10: the report of a search that returns results is consistent with
    the run: it repeats the pattern, [totalMatches] is the number of
    results, every result is a record of type [match], [availableRoots]
    is the size of the registry, the listed paths are the paths the engine
    was spawned on, in that order, and each is attributed by [rootNameOf]
    against the registry. *)
Theorem search_report_is_consistent
  (args : SearchArgs) (w : World) (body : SearchReport) :
  fst (handleRipgrepSearch env args w) = Normal (SearchContent body) ->
  pattern args = Some (rep_pattern body) /\
  rep_totalMatches body = List.length (rep_results body) /\
  Forall (fun v => isMatchRecord v = true) (rep_results body) /\
  rep_availableRoots body =
    List.length (availableRoots (snd (handleRipgrepSearch env args w))) /\
  In (Spawned "rg" (pushFlags args defaultRipgrepArgs
                    ++ rep_pattern body :: map sp_path (rep_searchPaths body))%list)
     (eventsSince w (snd (handleRipgrepSearch env args w))) /\
  Forall (fun entry =>
            sp_rootName entry =
              rootNameOf (availableRoots (snd (handleRipgrepSearch env args w)))
                (sp_path entry))
         (rep_searchPaths body).
Proof.
  destruct (Js.truthy_opt (pattern args)) eqn:Hpat.
  2:{ rewrite (handleRipgrepSearch_no_pattern env args w Hpat). discriminate. }
  destruct (truthy_opt_some _ Hpat) as (pat & Hsome & _).
  rewrite (handleRipgrepSearch_eq env args w Hpat).
  destruct (ensureRoots_events env w) as (pre & Hpre & _).
  destruct (fst (determineSearchPaths _ _)) as [searchPaths|e]; [|discriminate].
  destruct (firstRejected _ searchPaths) as [p|]; [discriminate|].
  rewrite runSearch_eq. cbn [fst snd].
  destruct (rg env _) as [e|e|code stdout stderr]; try discriminate.
  destruct (exitedCleanly code); [|discriminate].
  intros [= <-]. cbn [rep_pattern rep_totalMatches rep_results rep_availableRoots
                       rep_searchPaths availableRoots accessedWorld].
  rewrite Hsome. cbn [orDefault].
  split; [reflexivity|]. split; [reflexivity|].
  split; [apply matchRecords_are_matches|]. split; [reflexivity|].
  split.
  - erewrite eventsSince_app.
    2:{ cbn [trace accessedWorld]. rewrite Hpre, <- !app_assoc. reflexivity. }
    apply in_or_app. right. apply in_or_app. right. left.
    rewrite map_map. cbn [sp_path]. rewrite map_id.
    unfold buildRipgrepArgs, pushAll, push. rewrite <- app_assoc. reflexivity.
  - apply Forall_forall. intros entry Hin.
    apply in_map_iff in Hin as (sp & <- & _). reflexivity.
Qed.

(** X11: a search path is attributed to the first root of the registry, in
    registry order, whose [file://]-stripped URI is a prefix of the path as
    it was given (unresolved); the reported name is the name of that root,
    and no name is reported when no root is such a prefix. *)
Theorem path_is_attributed_to_first_prefix_root
  (roots before after : list Root) (r : Root) (sp : string) :
  ((forall b, In b roots -> Js.startsWith sp (rootPath b) = false) ->
   rootNameOf roots sp = None) /\
  (roots = (before ++ r :: after)%list ->
   (forall b, In b before -> Js.startsWith sp (rootPath b) = false) ->
   Js.startsWith sp (rootPath r) = true ->
   rootNameOf roots sp = name r).
Proof.
  unfold rootNameOf. split.
  - intros Hnone.
    destruct (find _ roots) as [r'|] eqn:Hfind; [|reflexivity].
    apply find_some in Hfind as [Hin Hpre]. rewrite (Hnone r' Hin) in Hpre. discriminate.
  - intros -> Hbefore Hr.
    induction before as [|b before IH]; cbn [app find].
    + rewrite Hr. reflexivity.
    + rewrite (Hbefore b) by (left; reflexivity).
      apply IH. intros b' Hin. apply Hbefore. right. exact Hin.
Qed.

(** X12: the report of [refresh_roots]. It always says [Roots refreshed
    successfully] and [totalRoots] is the number of roots it lists. When
    the client answered, it lists the roots now in the registry, each with
    its URI, its name and its URI without [file://]. When the request
    failed, it lists no roots although the registry keeps the roots it
    had. *)
Theorem refresh_report_lists_returned_roots (w : World) :
  exists body,
    fst (handleRefreshRoots env w) = Normal (RefreshContent body) /\
    refresh_message body = "Roots refreshed successfully" /\
    refresh_totalRoots body = List.length (refresh_availableRoots body) /\
    Forall (fun entry => info_path entry = Js.replace (info_uri entry) "file://" "")
           (refresh_availableRoots body) /\
    (forall roots,
        listRoots env (asked w) = RootsResponse roots ->
        map (fun entry => mkRoot (info_uri entry) (info_name entry))
            (refresh_availableRoots body) =
          availableRoots (snd (handleRefreshRoots env w))) /\
    (forall error,
        listRoots env (asked w) = RootsRejected error ->
        refresh_availableRoots body = [] /\ refresh_totalRoots body = 0 /\
        availableRoots (snd (handleRefreshRoots env w)) = availableRoots w).
Proof.
  unfold handleRefreshRoots, bind. rewrite requestRootsFromClient_eq.
  destruct (listRoots env (asked w)) as [roots|error]; cbn [fst snd ret];
    eexists; (split; [reflexivity|]);
    cbn [refresh_message refresh_totalRoots refresh_availableRoots availableRoots].
  - split; [reflexivity|]. split; [now rewrite length_map|].
    split.
    + apply Forall_forall. intros entry Hin.
      apply in_map_iff in Hin as (r & <- & _). reflexivity.
    + split; [|discriminate]. intros _ _.
      rewrite map_map. cbn [info_uri info_name].
      induction (orDefault [] roots) as [|[u n] rs IH]; [reflexivity|].
      cbn [map uri name]. rewrite IH. reflexivity.
  - split; [reflexivity|]. split; [reflexivity|]. split; [constructor|].
    split; [discriminate|]. intros _ _. repeat split.
Qed.

(** X13: refreshing twice in a row while the client gives the same reply
    returns the same roots and leaves the same registry both times. *)
Theorem refresh_is_idempotent (w : World) :
  listRoots env (S (asked w)) = listRoots env (asked w) ->
  fst (requestRootsFromClient env (snd (requestRootsFromClient env w))) =
    fst (requestRootsFromClient env w) /\
  availableRoots (snd (requestRootsFromClient env (snd (requestRootsFromClient env w)))) =
    availableRoots (snd (requestRootsFromClient env w)).
Proof.
  intros Hsame.
  rewrite (requestRootsFromClient_eq env (snd (requestRootsFromClient env w))).
  rewrite (requestRootsFromClient_eq env w).
  destruct (listRoots env (asked w)) as [roots|error] eqn:Hreply;
    cbn [snd asked]; rewrite Hsame; split; reflexivity.
Qed.

End Reports.

Section EntryPointProperties.

Context {number : Type} (env : Env number).

Lemma onRootsListChanged_eq (w : World) :
  onRootsListChanged env w =
  (Normal tt,
   snd (requestRootsFromClient env
          (mkWorld (availableRoots w) (asked w)
                   (trace w ++ [ConsoleError "Roots changed, refreshing..."])%list))).
Proof.
  unfold onRootsListChanged, bind, emit. rewrite requestRootsFromClient_eq.
  cbn [asked]. destruct (listRoots env (asked w)); reflexivity.
Qed.

(** X14: a roots-changed notification never throws. When the client then
    answers with a non-empty list, that list becomes the registry and the
    next search works with it: the search sends no [roots/list] request of
    its own and ends with the same registry. When the client fails, the
    registry keeps the roots it had. *)
Theorem notification_refreshes_registry_for_next_search (w : World) :
  fst (onRootsListChanged env w) = Normal tt /\
  (forall roots,
      listRoots env (asked w) = RootsResponse (Some roots) -> roots <> [] ->
      availableRoots (snd (onRootsListChanged env w)) = roots /\
      forall args,
        ~ In ListRootsRequested
            (eventsSince (snd (onRootsListChanged env w))
               (snd (handleRipgrepSearch env args (snd (onRootsListChanged env w))))) /\
        availableRoots
          (snd (handleRipgrepSearch env args (snd (onRootsListChanged env w)))) = roots) /\
  (forall error,
      listRoots env (asked w) = RootsRejected error ->
      availableRoots (snd (onRootsListChanged env w)) = availableRoots w).
Proof.
  rewrite onRootsListChanged_eq. cbn [fst snd].
  split; [reflexivity|]. split.
  - intros roots Hreply Hne.
    assert (Hreg : availableRoots
              (snd (requestRootsFromClient env
                      (mkWorld (availableRoots w) (asked w)
                         (trace w ++ [ConsoleError "Roots changed, refreshing..."])%list)))
            = roots).
    { rewrite requestRootsFromClient_eq. cbn [asked]. rewrite Hreply. reflexivity. }
    split; [exact Hreg|]. intros args.
    set (w1 := snd (requestRootsFromClient env _)) in *.
    assert (Hne1 : availableRoots w1 <> []) by (rewrite Hreg; exact Hne).
    destruct (Js.truthy_opt (pattern args)) eqn:Hpat.
    + destruct (handleRipgrepSearch_events env args w1 Hpat) as (later & Hlater & Hnone).
      rewrite Hlater, (handleRipgrepSearch_roots env args w1 Hpat).
      rewrite (ensureRoots_non_empty env w1 Hne1).
      rewrite (eventsSince_app w1 w1 []) by (now rewrite app_nil_r).
      split; [exact Hnone | exact Hreg].
    + rewrite (handleRipgrepSearch_no_pattern env args w1 Hpat). cbn [snd].
      rewrite (eventsSince_app w1 w1 []) by (now rewrite app_nil_r).
      split; [intros [] | exact Hreg].
  - intros error Hreply. rewrite requestRootsFromClient_eq. cbn [asked].
    rewrite Hreply. reflexivity.
Qed.

(** X15: the tool dispatcher. A name other than [ripgrep_search] and
    [refresh_roots] is refused with [Unknown tool: <name>] and nothing
    happens; [ripgrep_search] without an arguments object throws a
    [TypeError] and nothing happens; [refresh_roots] pays no attention to
    its arguments; and a call that returns gives a refresh report only for
    [refresh_roots] and a search report or failure payload only for
    [ripgrep_search]. *)
Theorem tool_dispatch (toolName : string) (args : option SearchArgs) (w : World) :
  (toolName <> "ripgrep_search" -> toolName <> "refresh_roots" ->
   callTool env toolName args w = (Throw (Error ("Unknown tool: " ++ toolName)), w)) /\
  (exists e, callTool env "ripgrep_search" None w = (Throw e, w) /\ errName e = "TypeError") /\
  callTool env "refresh_roots" args w = callTool env "refresh_roots" None w /\
  (forall body,
      fst (callTool env toolName args w) = Normal (RefreshContent body) ->
      toolName = "refresh_roots") /\
  (forall result,
      fst (callTool env toolName args w) = Normal result ->
      (forall body, result <> RefreshContent body) ->
      toolName = "ripgrep_search").
Proof.
  unfold callTool.
  split; [|split; [|split; [|split]]].
  - intros H1 H2.
    destruct (String.eqb_spec toolName "ripgrep_search"); [contradiction|].
    destruct (String.eqb_spec toolName "refresh_roots"); [contradiction|].
    reflexivity.
  - eexists. split; reflexivity.
  - reflexivity.
  - intros body.
    destruct (String.eqb_spec toolName "ripgrep_search") as [->|_].
    + destruct args as [args|]; [|discriminate].
      destruct (Js.truthy_opt (pattern args)) eqn:Hpat.
      * rewrite (handleRipgrepSearch_eq env args w Hpat).
        destruct (fst (determineSearchPaths _ _)) as [searchPaths|e]; [|discriminate].
        destruct (firstRejected _ searchPaths); [discriminate|].
        rewrite runSearch_eq. cbn [fst].
        destruct (rg env _) as [e|e|code stdout stderr]; try discriminate.
        destruct (exitedCleanly code); discriminate.
      * rewrite (handleRipgrepSearch_no_pattern env args w Hpat). discriminate.
    + destruct (String.eqb_spec toolName "refresh_roots") as [->|_]; [reflexivity|].
      discriminate.
  - intros result Hres Hnot.
    destruct (String.eqb_spec toolName "ripgrep_search") as [->|_]; [reflexivity|].
    destruct (String.eqb_spec toolName "refresh_roots") as [->|_]; [|discriminate].
    exfalso. revert Hres. unfold handleRefreshRoots, bind.
    rewrite requestRootsFromClient_eq.
    destruct (listRoots env (asked w)); cbn [fst ret]; intros [= <-]; eapply Hnot; reflexivity.
Qed.

Lemma announceEach_eq (roots : list Root) (w : World) :
  announceEach roots w =
  (Normal tt,
   mkWorld (availableRoots w) (asked w)
     (trace w ++ map (fun root => ConsoleError ("  - " ++ nameOrUnnamed root ++ ": "
                                                ++ uri root)) roots)%list).
Proof.
  revert w. induction roots as [|root rest IH]; intros w.
  - cbn. rewrite app_nil_r. destruct w; reflexivity.
  - cbn [announceEach]. unfold bind, emit. rewrite IH.
    cbn [availableRoots asked trace map]. rewrite <- app_assoc. reflexivity.
Qed.

(** X16: the first request for roots after start-up, made with an empty
    registry, never throws, and what it announces on [console.error] is
    what the registry then holds: after the request (and the log of its
    failure, if it failed) come the line with the number of roots of the
    registry and one line per root of the registry, in order, an unnamed
    root being announced as [Unnamed]. *)
Theorem startup_announces_the_registry (w : World) :
  availableRoots w = [] ->
  fst (initialRootsRequest env w) = Normal tt /\
  availableRoots (snd (initialRootsRequest env w)) =
    availableRoots (snd (requestRootsFromClient env w)) /\
  eventsSince w (snd (initialRootsRequest env w)) =
    (eventsSince w (snd (requestRootsFromClient env w))
     ++ ConsoleError ("MCP Ripgrep server running. Available roots: "
                      ++ Js.ofNumber
                           (Z.of_nat (List.length
                                        (availableRoots (snd (initialRootsRequest env w))))))
     :: map (fun root => ConsoleError ("  - " ++ nameOrUnnamed root ++ ": " ++ uri root))
            (availableRoots (snd (initialRootsRequest env w))))%list.
Proof.
  intros Hempty. unfold initialRootsRequest, bind, emit.
  rewrite requestRootsFromClient_eq.
  destruct (listRoots env (asked w)) as [roots|error];
    rewrite announceEach_eq; cbn [fst snd availableRoots asked trace];
    (split; [reflexivity|]); (split; [try rewrite Hempty; reflexivity|]).
  - rewrite (eventsSince_app w
               (mkWorld (orDefault [] roots) (S (asked w))
                        (trace w ++ [ListRootsRequested])%list)
               [ListRootsRequested]) by reflexivity.
    apply eventsSince_app. cbn [trace]. rewrite <- !app_assoc. reflexivity.
  - rewrite Hempty.
    rewrite (eventsSince_app w
               (mkWorld [] (S (asked w))
                  ((trace w ++ [ListRootsRequested])
                   ++ [ConsoleErrorWith "Failed to get roots from client:" error])%list)
               [ListRootsRequested;
                ConsoleErrorWith "Failed to get roots from client:" error])
      by (cbn [trace]; rewrite <- app_assoc; reflexivity).
    apply eventsSince_app. cbn [trace]. rewrite <- !app_assoc. reflexivity.
Qed.

End EntryPointProperties.

Section OutputProperties.

Context {number : Type} (env : Env number).

Lemma split_nonempty (s : string) (sep : ascii) : Js.split s sep <> [].
Proof.
  destruct s as [|c s]; cbn [Js.split]; [discriminate|].
  destruct (Ascii.eqb c sep); [discriminate|].
  destruct (Js.split s sep); discriminate.
Qed.

(** Splitting a text at a separator that is known to be there. *)
Lemma split_at_separator (a b : string) (sep : ascii) :
  Js.split (a ++ String sep b) sep = (Js.split a sep ++ Js.split b sep)%list.
Proof.
  induction a as [|c a IH].
  - cbn [append Js.split app]. rewrite Ascii.eqb_refl. reflexivity.
  - change (String c a ++ String sep b) with (String c (a ++ String sep b)).
    cbn [Js.split]. rewrite IH.
    destruct (Ascii.eqb c sep); [reflexivity|].
    pose proof (split_nonempty a sep) as Hne.
    destruct (Js.split a sep) as [|h t]; [contradiction | reflexivity].
Qed.

Lemma parsedRecords_app (xs ys : list string) :
  parsedRecords env (xs ++ ys) = (parsedRecords env xs ++ parsedRecords env ys)%list.
Proof.
  induction xs as [|x xs IH]; [reflexivity|].
  cbn [app parsedRecords]. destruct (JSON_parse env x); rewrite IH; reflexivity.
Qed.

Lemma matchRecords_at_newline (a b : string) :
  matchRecords env (a ++ String newline b) =
  (matchRecords env a ++ matchRecords env b)%list.
Proof.
  unfold matchRecords.
  rewrite split_at_separator, filter_app, parsedRecords_app, filter_app. reflexivity.
Qed.

Lemma parsedRecords_length (lines : list string) :
  List.length (parsedRecords env lines) <= List.length lines.
Proof.
  induction lines as [|line rest IH]; [apply le_n|].
  cbn [parsedRecords]. destruct (JSON_parse env line); cbn [List.length]; lia.
Qed.

(** X17: every record in the adapted output is an object whose own member
    [type] is the string [match], and there are no more records than lines
    in the output. *)
Theorem adapted_results_are_match_objects
  (stdout : string) (results : list (JsValue number)) :
  parseOutput env stdout = Normal results ->
  Forall (fun v => exists members,
                     v = JObject members /\
                     member "type" members = Some (JString "match")) results /\
  List.length results <= List.length (Js.split stdout newline).
Proof.
  rewrite parseOutput_eq. intros [= <-]. split.
  - apply Forall_forall. intros v Hin. unfold matchRecords in Hin.
    apply filter_In in Hin as [_ Hmatch].
    destruct v as [| | | | |members]; try discriminate.
    exists members. split; [reflexivity|]. cbn [isMatchRecord] in Hmatch.
    destruct (member "type" members) as [[| | |s| |]|]; try discriminate.
    cbn [isMatchString] in Hmatch. apply String.eqb_eq in Hmatch. now subst.
  - unfold matchRecords.
    eapply Nat.le_trans; [apply filter_length_le|].
    eapply Nat.le_trans; [apply parsedRecords_length|].
    apply filter_length_le.
Qed.

(** X18: the adaptation works line by line. The records of two texts
    joined by a newline are the records of the first followed by those of
    the second; a trailing newline changes nothing; the empty output gives
    no records. *)
Theorem output_adaptation_is_linewise (a b : string) :
  (exists ra rb,
      parseOutput env a = Normal ra /\ parseOutput env b = Normal rb /\
      parseOutput env (a ++ String newline b) = Normal (ra ++ rb)%list) /\
  parseOutput env (a ++ String newline "") = parseOutput env a /\
  parseOutput env "" = Normal [].
Proof.
  rewrite !parseOutput_eq. split; [|split].
  - exists (matchRecords env a), (matchRecords env b).
    rewrite matchRecords_at_newline. repeat split.
  - rewrite matchRecords_at_newline.
    change (matchRecords env "") with (@nil (JsValue number)).
    rewrite app_nil_r. reflexivity.
  - reflexivity.
Qed.

End OutputProperties.

Section BoundaryProperties.

Lemma normalizeSegments_trailing (allowAboveRoot : bool) (segs acc : list string)
  (s : string) :
  s = "" \/ s = "." ->
  Path.normalizeSegments allowAboveRoot acc (segs ++ [s]) =
  Path.normalizeSegments allowAboveRoot acc segs.
Proof.
  intros Hs. revert acc. induction segs as [|x rest IH]; intros acc.
  - destruct Hs as [-> | ->]; reflexivity.
  - cbn [app Path.normalizeSegments].
    destruct (String.eqb x "" || String.eqb x "."); [apply IH|].
    destruct (String.eqb x "..").
    + destruct acc as [|last acc']; [apply IH|].
      destruct (String.eqb last ".."); apply IH.
    + apply IH.
Qed.

Lemma normalizeString_trailing_slash (p : string) (allowAboveRoot : bool) :
  Path.normalizeString (p ++ "/") allowAboveRoot = Path.normalizeString p allowAboveRoot.
Proof.
  unfold Path.normalizeString.
  change (p ++ "/") with (p ++ String "/" "").
  rewrite split_at_separator. cbn [Js.split].
  rewrite normalizeSegments_trailing by (left; reflexivity). reflexivity.
Qed.

Lemma isAbsolute_append (p q : string) :
  p <> "" -> Path.isAbsolute (p ++ q) = Path.isAbsolute p.
Proof. destruct p; [contradiction | reflexivity]. Qed.

Lemma append_not_empty (p q : string) : p <> "" -> String.eqb (p ++ q) "" = false.
Proof. destruct p; [contradiction | reflexivity]. Qed.

(** [path.resolve] does not see a trailing slash. *)
Lemma resolve_trailing_slash (cwd p : string) :
  p <> "" -> Path.resolve cwd (p ++ "/") = Path.resolve cwd p.
Proof.
  intros Hp. unfold Path.resolve, Path.prepend.
  rewrite (append_not_empty p "/" Hp), (isAbsolute_append p "/" Hp).
  destruct (String.eqb_spec p ""); [contradiction|].
  change ((p ++ "/") ++ "/" ++ "") with ((p ++ "/" ++ "") ++ "/").
  destruct (Path.isAbsolute p).
  - cbn [negb]. rewrite normalizeString_trailing_slash. reflexivity.
  - destruct (String.eqb cwd "").
    + rewrite normalizeString_trailing_slash. reflexivity.
    + replace (cwd ++ "/" ++ (p ++ "/" ++ "") ++ "/")
        with ((cwd ++ "/" ++ p ++ "/" ++ "") ++ "/")
        by (rewrite !append_assoc; reflexivity).
      rewrite normalizeString_trailing_slash. reflexivity.
Qed.

Lemma drop_append (pat s : string) : Js.drop (Js.len pat) (pat ++ s) = s.
Proof. induction pat as [|c pat IH]; [reflexivity | exact IH]. Qed.

(** Replacing a pattern that stands at the head of the string. *)
Lemma replace_at_head (pat s : string) : Js.replace (pat ++ s) pat "" = s.
Proof.
  assert (Hif : (if String.prefix pat (pat ++ s)
                 then "" ++ Js.drop (Js.len pat) (pat ++ s) else "") = s).
  { rewrite prefix_append, drop_append. reflexivity. }
  destruct (pat ++ s) as [|c x] eqn:E.
  - cbn [Js.replace]. exact Hif.
  - cbn [Js.replace].
    assert (Hpre : String.prefix pat (String c x) = true)
      by (rewrite <- E; apply prefix_append).
    rewrite Hpre in Hif |- *. exact Hif.
Qed.

(** X19: a trailing slash does not change the boundary decision, neither
    after a non-empty search path nor after a non-empty path in the URI of
    a root: [/root/] is within the same roots as [/root], and the root
    [file:///root/] admits the same paths as [file:///root]. Both paths
    must be non-empty: the empty path resolves to the working directory
    and [/] to the file-system root, so the roots [file://] and
    [file:///] differ. *)
Theorem trailing_slash_does_not_change_boundary_check
  (cwd : string) (roots : list Root) (p : string) :
  (p <> "" -> isWithinRoots cwd roots (p ++ "/") = isWithinRoots cwd roots p) /\
  (forall u n,
      u <> "" ->
      withinRoot cwd p (mkRoot ("file://" ++ u ++ "/") n) =
      withinRoot cwd p (mkRoot ("file://" ++ u) n)).
Proof.
  split.
  - intros Hp. unfold isWithinRoots, withinRoot.
    rewrite (resolve_trailing_slash cwd p Hp). reflexivity.
  - intros u n Hu. unfold withinRoot, rootPath. cbn [uri].
    rewrite (replace_at_head "file://" (u ++ "/")), (replace_at_head "file://" u).
    rewrite (resolve_trailing_slash cwd u Hu). reflexivity.
Qed.

Lemma prefix_drop (pat s : string) :
  String.prefix pat s = true -> s = pat ++ Js.drop (Js.len pat) s.
Proof.
  revert s. induction pat as [|c pat IH]; intros s H; [reflexivity|].
  destruct s as [|d s]; [discriminate|]. cbn in H.
  destruct (ascii_dec c d) as [->|]; [|discriminate].
  cbn. f_equal. apply IH. exact H.
Qed.

(** X20: the path of a root. A URI that starts with [file://] loses this
    prefix and nothing else, also when [file://] occurs again further on;
    a URI in which [file://] does not occur is taken as it is. *)
Theorem rootPath_strips_the_scheme_once (u : string) (n : option string) :
  rootPath (mkRoot ("file://" ++ u) n) = u /\
  (~ occursIn "file://" u -> rootPath (mkRoot u n) = u).
Proof.
  unfold rootPath. cbn [uri]. split; [apply replace_at_head|].
  induction u as [|c u IH]; intros Hnone; [reflexivity|].
  cbn [Js.replace].
  destruct (String.prefix "file://" (String c u)) eqn:Hpre.
  - exfalso. apply Hnone. exists "", (Js.drop (Js.len "file://") (String c u)).
    apply (prefix_drop _ _ Hpre).
  - f_equal. apply IH. intros (before & after & ->).
    apply Hnone. exists (String c before), after. reflexivity.
Qed.

End BoundaryProperties.

(* ===================================================================== *)
(** * The further properties at the sample environments *)
(* ===================================================================== *)

Lemma pattern_is_required_witness :
  handleRipgrepSearch onlineEnv (mkArgs (Some "") (Some "/root") None None None None None)
    freshWorld = (Throw (Error "Pattern is required"), freshWorld).
Proof.
  apply (proj1 (pattern_is_required onlineEnv
                  (mkArgs (Some "") (Some "/root") None None None None None) freshWorld)).
  reflexivity.
Defined.

Lemma named_root_resolves_to_first_match_witness :
  determineSearchPaths (request "TODO" None (Some "project")) sharedWorld =
  (Normal ["/root"], sharedWorld).
Proof.
  apply (named_root_resolves_to_first_match (request "TODO" None (Some "project"))
           "project" sharedWorld [docsRoot] [twinRoot] projectRoot);
    try reflexivity; try discriminate.
  intros b [<-|[]]. discriminate.
Defined.

Lemma unscoped_request_searches_every_root_witness :
  eventsSince sharedWorld
    (snd (handleRipgrepSearch offlineEnv (request "TODO" None None) sharedWorld)) =
  [Accessed "/srv"; Accessed "/root"; Accessed "/root-2";
   Spawned "rg" ["--json"; "--no-heading"; "--ignore-case"; "--max-results=1000";
                 "--max-matched-files=100"; "TODO"; "/srv"; "/root"; "/root-2"]].
Proof.
  apply (proj1 (unscoped_request_searches_every_root offlineEnv
                  (request "TODO" None None) sharedWorld "TODO"
                  eq_refl ltac:(discriminate) eq_refl ltac:(discriminate))).
  repeat constructor.
Defined.

Lemma unscoped_request_without_roots_fails_witness :
  fst (handleRipgrepSearch offlineEnv (request "TODO" None None) freshWorld) =
  Throw (Error ("No search paths available. The client has not provided any roots. "
                ++ "Use refresh_roots tool or provide a specific path.")).
Proof.
  apply (unscoped_request_without_roots_fails offlineEnv
           (request "TODO" None None) freshWorld); reflexivity.
Defined.

Lemma registered_root_path_validates_witness :
  isWithinRoots (cwd offlineEnv) (availableRoots sharedWorld) "/root-2" = true.
Proof.
  apply (proj1 (registered_root_path_validates offlineEnv sharedWorld twinRoot
                  ltac:(right; right; left; reflexivity))).
Defined.

Lemma validation_stops_at_first_failure_witness :
  trace (snd (validatePaths offlineEnv (["/root"] ++ "/srv" :: ["/root-2"]) rootedWorld)) =
  (trace rootedWorld ++ map Accessed ["/root"] ++ [Accessed "/srv"])%list.
Proof.
  apply (validation_stops_at_first_failure offlineEnv ["/root"] ["/root-2"] "/srv"
           rootedWorld).
  - constructor; [|constructor]. split; [reflexivity | right; reflexivity].
  - right. split; [discriminate | reflexivity].
Defined.

Lemma validatePath_outcomes_witness :
  fst (validatePath offlineEnv "/etc" rootedWorld) =
  Throw (Error ("Search path validation failed for '/etc': "
                ++ "ENOENT: no such file or directory, access '/etc'")).
Proof.
  apply (proj1 (validatePath_outcomes offlineEnv "/etc" rootedWorld) (enoent "/etc")).
  reflexivity.
Defined.

Lemma search_keeps_non_empty_registry_witness :
  availableRoots (snd (handleRipgrepSearch onlineEnv (request "TODO" (Some "/root") None)
                         rootedWorld)) = availableRoots rootedWorld.
Proof.
  apply (search_keeps_non_empty_registry onlineEnv (request "TODO" (Some "/root") None)
           rootedWorld).
  discriminate.
Defined.

Lemma search_returns_iff_it_spawned_once_witness :
  spawnCount
    (eventsSince freshWorld
       (snd (handleRipgrepSearch onlineEnv (request "TODO" (Some "/root") None) freshWorld)))
  = 1.
Proof.
  apply (proj1 (proj1 (proj2 (search_returns_iff_it_spawned_once onlineEnv
                                (request "TODO" (Some "/root") None) freshWorld)))).
  eexists. vm_compute. reflexivity.
Defined.

Lemma search_report_is_consistent_witness :
  rep_totalMatches emptyReport = List.length (rep_results emptyReport).
Proof.
  apply (search_report_is_consistent onlineEnv (request "TODO" (Some "/root") None)
           freshWorld emptyReport).
  vm_compute. reflexivity.
Defined.

Lemma path_is_attributed_to_first_prefix_root_witness :
  rootNameOf [docsRoot; projectRoot; twinRoot] "/root-2/notes" = Some "project".
Proof.
  apply (proj2 (path_is_attributed_to_first_prefix_root [docsRoot; projectRoot; twinRoot]
                  [docsRoot] [twinRoot] projectRoot "/root-2/notes"));
    try reflexivity.
  intros b [<-|[]]. reflexivity.
Defined.

Lemma refresh_report_lists_returned_roots_witness :
  exists body,
    fst (handleRefreshRoots offlineEnv rootedWorld) = Normal (RefreshContent body) /\
    refresh_totalRoots body = 0 /\
    availableRoots (snd (handleRefreshRoots offlineEnv rootedWorld)) = [projectRoot].
Proof.
  destruct (refresh_report_lists_returned_roots offlineEnv rootedWorld)
    as (body & Hres & _ & _ & _ & _ & Hfail).
  destruct (Hfail (Error "Method not found") eq_refl) as (_ & Hzero & Hkeep).
  exists body. split; [exact Hres | split; [exact Hzero | exact Hkeep]].
Defined.

Lemma refresh_is_idempotent_witness :
  availableRoots
    (snd (requestRootsFromClient onlineEnv (snd (requestRootsFromClient onlineEnv freshWorld))))
  = availableRoots (snd (requestRootsFromClient onlineEnv freshWorld)).
Proof.
  apply (refresh_is_idempotent onlineEnv freshWorld). reflexivity.
Defined.

Lemma notification_refreshes_registry_for_next_search_witness :
  availableRoots (snd (onRootsListChanged onlineEnv freshWorld)) = [projectRoot].
Proof.
  apply (proj1 (proj2 (notification_refreshes_registry_for_next_search onlineEnv freshWorld))
           [projectRoot]).
  - reflexivity.
  - discriminate.
Defined.

Lemma tool_dispatch_witness :
  callTool onlineEnv "list_files" None rootedWorld =
  (Throw (Error "Unknown tool: list_files"), rootedWorld).
Proof.
  apply (proj1 (tool_dispatch onlineEnv "list_files" None rootedWorld)); discriminate.
Defined.

Lemma startup_announces_the_registry_witness :
  eventsSince freshWorld (snd (initialRootsRequest onlineEnv freshWorld)) =
  [ListRootsRequested;
   ConsoleError "MCP Ripgrep server running. Available roots: 1";
   ConsoleError "  - project: file:///root"].
Proof.
  apply (proj2 (proj2 (startup_announces_the_registry onlineEnv freshWorld eq_refl))).
Defined.

Lemma adapted_results_are_match_objects_witness :
  List.length [@JObject Z [("type", JString "match")]]
  <= List.length (Js.split mixedOutput newline).
Proof.
  apply (adapted_results_are_match_objects offlineEnv mixedOutput
           [JObject [("type", JString "match")]]).
  reflexivity.
Defined.

Lemma trailing_slash_does_not_change_boundary_check_witness :
  isWithinRoots "/home/user" [projectRoot] ("/root/src" ++ "/") =
  isWithinRoots "/home/user" [projectRoot] "/root/src".
Proof.
  apply (proj1 (trailing_slash_does_not_change_boundary_check "/home/user"
                  [projectRoot] "/root/src")).
  discriminate.
Defined.

Lemma rootPath_strips_the_scheme_once_witness :
  rootPath (mkRoot "/srv" None) = "/srv".
Proof.
  apply (proj2 (rootPath_strips_the_scheme_once "/srv" None)).
  intros (before & after & H).
  repeat (destruct before as [|? before]; cbn in H; [discriminate|]; injection H as _ H).
  destruct before; discriminate.
Defined.

Lemma within_by_components_is_accepted_witness :
  isWithinRoots "/home/user" [projectRoot] "/root/src/../lib" = true.
Proof.
  apply (within_by_components_is_accepted "/home/user" [projectRoot] "/root/src/../lib");
    reflexivity.
Defined.

Section ExplicitPath.

Context {number : Type} (env : Env number).

(** X22: the outcome of a search with an explicit path. The path is
    checked with [access] once. When it exists and the registry (after
    the refresh of an empty registry) is empty, or holds a root the path
    is within by [isWithinRoots], the engine is spawned on exactly this
    path and the handler returns; so without any roots an existing path
    is searched wherever it lies. When it does not exist, or is outside a
    non-empty registry, the handler throws after the [access] call and
    spawns nothing. *)
Theorem explicit_path_search_outcome
  (args : SearchArgs) (w : World) (pat p : string) :
  pattern args = Some pat -> pat <> "" ->
  path args = Some p -> p <> "" ->
  (access env p = None ->
   availableRoots (snd (ensureRoots env w)) = [] \/
   isWithinRoots (cwd env) (availableRoots (snd (ensureRoots env w))) p = true ->
   eventsSince w (snd (handleRipgrepSearch env args w)) =
     (eventsSince w (snd (ensureRoots env w))
      ++ [Accessed p; Spawned "rg" (pushFlags args defaultRipgrepArgs ++ [pat; p])])%list /\
   exists result, fst (handleRipgrepSearch env args w) = Normal result) /\
  (access env p <> None \/
   (availableRoots (snd (ensureRoots env w)) <> [] /\
    isWithinRoots (cwd env) (availableRoots (snd (ensureRoots env w))) p = false) ->
   eventsSince w (snd (handleRipgrepSearch env args w)) =
     (eventsSince w (snd (ensureRoots env w)) ++ [Accessed p])%list /\
   exists e, fst (handleRipgrepSearch env args w) = Throw e).
Proof.
  intros Hsome Hne Hpath Hp.
  assert (Hpat : Js.truthy_opt (pattern args) = true)
    by (rewrite Hsome; apply truthy_opt_of_some; exact Hne).
  rewrite (handleRipgrepSearch_eq env args w Hpat).
  rewrite (determineSearchPaths_path args p _ Hpath Hp). cbn [fst].
  destruct (ensureRoots_events env w) as (pre & Hpre & _).
  rewrite (eventsSince_app w (snd (ensureRoots env w)) pre Hpre).
  unfold firstRejected. cbn [find reachedPaths].
  split.
  - intros Hacc Hin.
    assert (Hok : passesValidation env (availableRoots (snd (ensureRoots env w))) p = true).
    { unfold passesValidation. rewrite Hacc.
      destruct (availableRoots (snd (ensureRoots env w))) as [|r roots]; [reflexivity|].
      destruct Hin as [Hnil|Hin]; [discriminate | exact Hin]. }
    rewrite Hok. cbn [negb]. rewrite runSearch_eq. cbn [fst snd]. split.
    + apply eventsSince_app. cbn [trace accessedWorld map].
      rewrite Hpre, Hsome. cbn [orDefault].
      unfold buildRipgrepArgs, pushAll, push. rewrite <- !app_assoc. reflexivity.
    + destruct (rg env _) as [e|e|code stdout stderr]; try (eexists; reflexivity).
      destruct (exitedCleanly code); eexists; reflexivity.
  - intros Hbad.
    assert (Hfail : passesValidation env (availableRoots (snd (ensureRoots env w))) p = false).
    { unfold passesValidation. destruct (access env p) as [err|]; [reflexivity|].
      destruct Hbad as [Hacc|[Hroots Hout]]; [contradiction|].
      rewrite (length_positive _ Hroots). exact Hout. }
    rewrite Hfail. cbn [negb fst snd]. split; [|eexists; reflexivity].
    apply eventsSince_app. cbn [trace accessedWorld map].
    rewrite Hpre, <- app_assoc. reflexivity.
Qed.

End ExplicitPath.

Lemma explicit_path_search_outcome_witness :
  eventsSince freshWorld
    (snd (handleRipgrepSearch offlineEnv (request "TODO" (Some "/srv") None) freshWorld)) =
  [ListRootsRequested;
   ConsoleErrorWith "Failed to get roots from client:" (Error "Method not found");
   Accessed "/srv"; Spawned "rg" (todoArgv "/srv")].
Proof.
  apply (proj1 (explicit_path_search_outcome offlineEnv
                  (request "TODO" (Some "/srv") None) freshWorld "TODO" "/srv"
                  eq_refl ltac:(discriminate) eq_refl ltac:(discriminate))).
  - reflexivity.
  - left. reflexivity.
Defined.

Section DescendantPaths.

Context {number : Type} (env : Env number).

(** X21: in a process with an absolute working directory, a path that
    exists and lies within some root of the registry by path components
    (after resolving [.], [..], repeated and trailing slashes on both
    sides) is never refused by the validation: [validatePath] returns. *)
Theorem paths_within_a_root_by_components_validate (p : string) (w : World) :
  Path.isAbsolute (cwd env) = true ->
  access env p = None ->
  isWithinRootsByComponents (cwd env) (availableRoots w) p = true ->
  fst (validatePath env p w) = Normal tt.
Proof.
  intros Hcwd Hacc Hin. rewrite validatePath_eq. cbn [fst].
  unfold passesValidation. rewrite Hacc.
  rewrite (within_by_components_is_accepted (cwd env) (availableRoots w) p Hcwd Hin).
  destruct (Nat.ltb 0 (List.length (availableRoots w))); reflexivity.
Qed.

End DescendantPaths.

Lemma paths_within_a_root_by_components_validate_witness :
  fst (validatePath (sampleEnv clientDown ["/root/./src/"] noMatches) "/root/./src/"
         rootedWorld) = Normal tt.
Proof.
  apply (paths_within_a_root_by_components_validate
           (sampleEnv clientDown ["/root/./src/"] noMatches) "/root/./src/" rootedWorld);
    reflexivity.
Defined.
